(** * librawincov: DOCX to PDF through LibreOffice, with a WSL fallback

    A shallow embedding of [src/librawincov/converter.py] and the
    properties of its locator, path translator, command builder and
    converter.

    Conventions of the embedding.
    - A Python [str] is a [string]; its characters are the code points
      below 256 (Latin-1), which is where [str.lower] and [str.isspace]
      are modelled.
    - A [pathlib.Path] is its anchor (drive and root) and the list of its
      components, as pathlib stores it.
    - What the program reads from its surroundings (environment
      variables, the platform name, the search path, path resolution, the
      external process) is a field of the record [Host]; the file system
      is a state threaded through the monad [Py], together with the trace
      of the library calls made.
    - The program is embedded twice. Section [Program] has it over a
      library whose calls are answered every time; module [Real] has it
      over a library whose calls can also fail on their own account (a
      look at a path that the system refuses, captured output that is no
      text, a stack that runs out), and adds [main] of
      [src/librawincov/cli.py]. Where the calls of a run are answered
      the two agree, which is how the facts about the first carry over
      to the second. *)

From Stdlib Require Import Ascii String List Bool Arith ZArith Lia.
From stdpp Require Import base decidable option list strings.

Import ListNotations.
Local Open Scope list_scope.

(** ** Python strings *)

Module PyStr.

(** [len(s)] *)
Definition len (s : string) : nat := String.length s.

(** [s[i]] for [0 <= i]; [None] stands for IndexError. *)
Definition index (s : string) (i : nat) : option ascii := String.get i s.

(** [s[i:]] for [0 <= i]. *)
Fixpoint slice_from (i : nat) (s : string) : string :=
  match i, s with
  | O, _ => s
  | S _, EmptyString => EmptyString
  | S j, String _ t => slice_from j t
  end.

(** [s[:i]] for [0 <= i]. *)
Fixpoint slice_to (i : nat) (s : string) : string :=
  match i, s with
  | O, _ => EmptyString
  | S _, EmptyString => EmptyString
  | S j, String c t => String c (slice_to j t)
  end.

Definition of_char (c : ascii) : string := String c EmptyString.

(** [c.lower()] on one code point below 256: the letters A-Z and the
    Latin-1 capitals U+00C0..U+00DE other than the multiplication sign
    U+00D7 move up by 32. *)
Definition lower_char (c : ascii) : ascii :=
  let n := nat_of_ascii c in
  if ((65 <=? n) && (n <=? 90)) ||
     ((192 <=? n) && (n <=? 222) && negb (n =? 215))
  then ascii_of_nat (n + 32) else c.

(** [s.lower()] *)
Fixpoint lower (s : string) : string :=
  match s with
  | EmptyString => EmptyString
  | String c t => String (lower_char c) (lower t)
  end.

(** [s.replace(old, new)] where [old] is one character. *)
Fixpoint replace (old : ascii) (new : string) (s : string) : string :=
  match s with
  | EmptyString => EmptyString
  | String c t =>
      if Ascii.eqb c old then new +:+ replace old new t
      else String c (replace old new t)
  end.

(** [c.isspace()] on one code point below 256. *)
Definition isspace (c : ascii) : bool :=
  let n := nat_of_ascii c in
  ((9 <=? n) && (n <=? 13)) || ((28 <=? n) && (n <=? 32)) ||
  (n =? 133) || (n =? 160).

(** [s.lstrip()] *)
Fixpoint lstrip (s : string) : string :=
  match s with
  | EmptyString => EmptyString
  | String c t => if isspace c then lstrip t else s
  end.

(** [s.rstrip()] *)
Fixpoint rstrip (s : string) : string :=
  match s with
  | EmptyString => EmptyString
  | String c t =>
      match rstrip t with
      | EmptyString => if isspace c then EmptyString else of_char c
      | r => String c r
      end
  end.

(** [s.strip()] *)
Definition strip (s : string) : string := lstrip (rstrip s).

(** [s.rfind(c)] for one character: the last index of [c], [None] for
    Python's -1. *)
Fixpoint rfind (c : ascii) (s : string) : option nat :=
  match s with
  | EmptyString => None
  | String d t =>
      match rfind c t with
      | Some i => Some (S i)
      | None => if Ascii.eqb d c then Some 0 else None
      end
  end.

(** [s[i]] as the one-character string it is in Python; the program
    indexes only below [len(s)]. *)
Definition item (s : string) (i : nat) : string :=
  match index s i with
  | Some c => of_char c
  | None => EmptyString
  end.

(** Truth value of a string: empty is false. *)
Definition truthy (s : string) : bool :=
  match s with EmptyString => false | _ => true end.

(** Truth value of a [str | None]. *)
Definition truthy_opt (o : option string) : bool :=
  match o with Some s => truthy s | None => false end.

(** [a or b] on strings. *)
Definition or_ (a b : string) : string := if truthy a then a else b.

(** [sep.join(l)] *)
Fixpoint join (sep : string) (l : list string) : string :=
  match l with
  | [] => EmptyString
  | [x] => x
  | x :: r => x +:+ sep +:+ join sep r
  end.





End PyStr.

(** ** pathlib *)

(** A path as pathlib keeps it: [anchor] is the drive and root
    (["C:\"], ["/"], or empty for a relative path), [parts] the components
    after it. *)
Record Path := mkPath { anchor : string; parts : list string }.

#[global] Instance Path_eq_dec : EqDecision Path.
Proof. solve_decision. Defined.

Module PurePath.

(** [str(p)] with the flavour's separator: the anchor followed by the
    components; the empty path prints as a dot. *)
Definition str (sep : string) (p : Path) : string :=
  match anchor p, parts p with
  | EmptyString, [] => "."
  | a, l => a +:+ PyStr.join sep l
  end.

(** [p.name]: the last component, empty when there is none. *)
Definition name (p : Path) : string := List.last (parts p) EmptyString.

(** [p.stem]: the name without its last suffix; a leading or a trailing
    dot does not start a suffix. *)
Definition stem (p : Path) : string :=
  let n := name p in
  match PyStr.rfind "."%char n with
  | Some i =>
      if (0 <? i) && (i <? PyStr.len n - 1) then PyStr.slice_to i n else n
  | None => n
  end.

(** [p.parent]: the path without its last component; a path without
    components is its own parent. *)
Definition parent (p : Path) : Path :=
  mkPath (anchor p) (List.removelast (parts p)).

(** [p / name] for a name that is one plain component. *)
Definition joinpath (p : Path) (n : string) : Path :=
  mkPath (anchor p) (parts p ++ [n]).

(** [p.is_relative_to(d)]: [p] is [d] or lies below it. *)
Definition is_relative_to (p d : Path) : bool :=
  bool_decide (anchor p = anchor d) &&
  bool_decide (parts d `prefix_of` parts p).

(** The path that takes the place of [p] when the tree at [src] is
    moved to [dst]. *)
Definition rebase (src dst p : Path) : Path :=
  mkPath (anchor dst) (parts dst ++ drop (List.length (parts src)) (parts p)).

End PurePath.

(** ** Exceptions, the file system and the interpreter state *)

Inductive Errno :=
  ENOENT | EEXIST | ENOTDIR | EACCES | ENOEXEC | ENAMETOOLONG.

(** The exceptions the program meets. [FileNotFoundError],
    [FileExistsError], [NotADirectoryError] and [PermissionError] are
    [OSError] with the matching [errno]; [shutil.Error] carries none.
    [RecursionError] is a [RuntimeError] and [UnicodeDecodeError] is a
    [ValueError]: an [except] clause for the class takes them, and they
    are written as the class. *)
Inductive Exc :=
| OSError (e : Errno) (msg : string)
| ShutilError (msg : string)
| RuntimeError (msg : string)
| ValueError (msg : string).

Abbreviation FileNotFoundError := (OSError ENOENT).
Abbreviation FileExistsError := (OSError EEXIST).
Abbreviation NotADirectoryError := (OSError ENOTDIR).

Inductive Node := File (content : string) | Dir.

#[global] Instance Node_eq_dec : EqDecision Node.
Proof. solve_decision. Defined.

(** The file system: what lies at each path. *)
Definition FS := Path -> option Node.

(** The library calls that touch the surroundings, in the order made. *)
Inductive Event :=
| EnvironGet (name : string)
| PathExists (p : Path)
| PlatformSystem
| Which (name : string)
| Mkdtemp (p : Path)
| SubprocessRun (cmd : list string)
| Mkdir (p : Path)
| Move (src dst : Path)
| Cleanup (p : Path).

Record State := mkState { fs : FS; trace : list Event }.

(** [subprocess.CompletedProcess] with the streams captured as text. *)
Record CompletedProcess :=
  { returncode : Z; stdout : string; stderr : string }.

(** What the program reads from the machine it runs on. *)
Record Host := {
  (** [os.environ.get(name)] *)
  os_environ_get : string -> option string;
  (** [platform.system()] *)
  platform_system : string;
  (** [shutil.which(name)] *)
  shutil_which : string -> option string;
  (** [os.sep], with which [str(path)] prints *)
  os_sep : string;
  (** [Path(s)]: the flavour's parser of a path string *)
  Path_of : string -> Path;
  (** [path.resolve()]: the absolute, normalised path; it is taken to
      return a path on every input *)
  resolve : Path -> Path;
  (** the name [tempfile.mkdtemp] picks *)
  mkdtemp_name : FS -> string;
  (** the external process: it either cannot be started, or runs, does
      what it does to the file system and exits *)
  spawn : list string -> FS -> (Errno * string + CompletedProcess) * FS
}.

Inductive Outcome (A : Type) :=
| Return (a : A)
| Raise (e : Exc).
Arguments Return {A} a.
Arguments Raise {A} e.

(** A computation: from a state to a value or an exception, and the state
    it leaves. *)
Definition Py (A : Type) := State -> Outcome A * State.

Definition ret {A} (a : A) : Py A := fun s => (Return a, s).

Definition bind {A B} (m : Py A) (k : A -> Py B) : Py B :=
  fun s =>
    match m s with
    | (Return a, s') => k a s'
    | (Raise e, s') => (Raise e, s')
    end.

Definition raise {A} (e : Exc) : Py A := fun s => (Raise e, s).

(** [try: m except: handler]; a handler that answers [None] lets the
    exception through. *)
Definition try_except {A} (m : Py A) (handler : Exc -> option (Py A)) : Py A :=
  fun s =>
    match m s with
    | (Return a, s') => (Return a, s')
    | (Raise e, s') =>
        match handler e with
        | Some h => h s'
        | None => (Raise e, s')
        end
    end.

(** [try: m finally: cleanup], for a cleanup that does not raise. *)
Definition try_finally {A} (m : Py A) (cleanup : State -> State) : Py A :=
  fun s => let (r, s') := m s in (r, cleanup s').

Definition log (e : Event) : Py unit :=
  fun s => (Return tt, mkState (fs s) (trace s ++ [e])).

Definition get_fs : Py FS := fun s => (Return (fs s), s).

Definition put_fs (f : FS) : Py unit :=
  fun s => (Return tt, mkState f (trace s)).

Notation "x <- m ;; k" := (bind m (fun x => k))
  (at level 100, m at next level, right associativity).
Notation "m ;;; k" := (bind m (fun _ => k))
  (at level 100, right associativity).

(** ** File-system operations *)

Definition fs_set (p : Path) (n : option Node) (f : FS) : FS :=
  fun q => if decide (q = p) then n else f q.

Definition fs_exists (f : FS) (p : Path) : bool :=
  match f p with Some _ => true | None => false end.

Definition fs_isdir (f : FS) (p : Path) : bool :=
  match f p with Some Dir => true | _ => false end.

(** [shutil.rmtree(d)]: nothing is left at [d] or below it. *)
Definition fs_rmtree (d : Path) (f : FS) : FS :=
  fun q => if PurePath.is_relative_to q d then None else f q.

(** The tree at [src] taken to [dst]. *)
Definition fs_move_tree (src dst : Path) (f : FS) : FS :=
  fun q =>
    if PurePath.is_relative_to q dst then f (PurePath.rebase dst src q)
    else if PurePath.is_relative_to q src then None
    else f q.

(** ** The program *)

Section Program.

Context (h : Host).

Definition str (p : Path) : string := PurePath.str (os_sep h) p.

(** *** Library calls *)

Definition os_environ (name : string) : Py (option string) :=
  log (EnvironGet name) ;;; ret (os_environ_get h name).

Definition system : Py string :=
  log PlatformSystem ;;; ret (platform_system h).

Definition which (name : string) : Py (option string) :=
  log (Which name) ;;; ret (shutil_which h name).

Definition Path_exists (p : Path) : Py bool :=
  log (PathExists p) ;;; f <- get_fs ;; ret (fs_exists f p).

(** [subprocess.run(command, capture_output=True, text=True)] *)
Definition subprocess_run (command : list string) : Py CompletedProcess :=
  log (SubprocessRun command) ;;;
  f <- get_fs ;;
  match spawn h command f with
  | (inl (e, msg), f') => put_fs f' ;;; raise (OSError e msg)
  | (inr result, f') => put_fs f' ;;; ret result
  end.

(** [os.mkdir(p)] *)
Definition os_mkdir (p : Path) : Py unit :=
  f <- get_fs ;;
  match f p with
  | Some _ => raise (FileExistsError (str p))
  | None =>
      match f (PurePath.parent p) with
      | None => raise (FileNotFoundError (str p))
      | Some (File _) => raise (NotADirectoryError (str p))
      | Some Dir => put_fs (fs_set p (Some Dir) f)
      end
  end.

(** The [except OSError] arm of [Path.mkdir] under [exist_ok=True]:
    the error is dropped when the path is a directory. *)
Definition unless_is_dir (p : Path) (e : Exc) : option (Py unit) :=
  match e with
  | OSError _ _ =>
      Some (f <- get_fs ;; if fs_isdir f p then ret tt else raise e)
  | _ => None
  end.

(** [p.mkdir(parents=True, exist_ok=True)] as pathlib writes it: try
    [os.mkdir]; on [FileNotFoundError] make the parent the same way and
    try once more; on another [OSError] accept an existing directory.
    The recursion is on the number of components of [p]. *)
Fixpoint mkdir_rec (n : nat) (p : Path) : Py unit :=
  try_except (os_mkdir p) (fun e =>
    match e with
    | FileNotFoundError _ =>
        if decide (PurePath.parent p = p) then None
        else
          match n with
          | O => None
          | S n' =>
              Some (mkdir_rec n' (PurePath.parent p) ;;;
                    try_except (os_mkdir p) (fun e' =>
                      match e' with
                      | FileNotFoundError _ => None
                      | _ => unless_is_dir p e'
                      end))
          end
    | _ => unless_is_dir p e
    end).

Definition Path_mkdir (p : Path) : Py unit :=
  log (Mkdir p) ;;; mkdir_rec (List.length (parts p)) p.

(** [shutil.move(src, dst)], by its outcome. A destination that is a
    directory receives the source under the source's name, unless that
    name is taken; otherwise a file replaces what is at the destination
    and a directory tree moves to a destination that is free. *)
Definition shutil_move (src dst : Path) : Py unit :=
  log (Move src dst) ;;;
  f <- get_fs ;;
  if fs_isdir f dst && bool_decide (src = dst) then ret tt
  else
    real_dst <-
      (if fs_isdir f dst then
         let r := PurePath.joinpath dst (PurePath.name src) in
         if fs_exists f r
         then raise (ShutilError ("Destination path '" +:+ str r +:+ "' already exists"))
         else ret r
       else ret dst) ;;
    match f src with
    | None => raise (FileNotFoundError (str src))
    | Some (File c) =>
        match f (PurePath.parent real_dst) with
        | Some Dir => put_fs (fs_set real_dst (Some (File c)) (fs_set src None f))
        | Some (File _) => raise (NotADirectoryError (str real_dst))
        | None => raise (FileNotFoundError (str real_dst))
        end
    | Some Dir =>
        if PurePath.is_relative_to dst src
        then raise (ShutilError ("Cannot move a directory '" +:+ str src +:+
                                 "' into itself '" +:+ str dst +:+ "'."))
        else if fs_exists f real_dst
        then raise (FileExistsError (str real_dst))
        else mkdir_rec (List.length (parts real_dst)) (PurePath.parent real_dst) ;;;
             f' <- get_fs ;; put_fs (fs_move_tree src real_dst f')
    end.

(** [with tempfile.TemporaryDirectory() as tmp_dir: body]: the
    directory is made under a name the host picks, and on the way out,
    whether [body] returned or raised, it is removed with all below
    it. *)
Definition TemporaryDirectory {A} (body : string -> Py A) : Py A :=
  f <- get_fs ;;
  let tmp_dir := mkdtemp_name h f in
  log (Mkdtemp (Path_of h tmp_dir)) ;;;
  put_fs (fs_set (Path_of h tmp_dir) (Some Dir) f) ;;;
  try_finally (body tmp_dir)
    (fun s => mkState (fs_rmtree (Path_of h tmp_dir) (fs s))
                      (trace s ++ [Cleanup (Path_of h tmp_dir)])).

(** *** converter.py *)

(** [for name in names: found = shutil.which(name); if found: return
    Path(found), False], the loop leaving with the first hit. *)
Fixpoint first_which (names : list string) : Py (option (Path * bool)) :=
  match names with
  | [] => ret None
  | name :: rest =>
      found <- which name ;;
      match found with
      | Some f =>
          if PyStr.truthy f then ret (Some (Path_of h f, false))
          else first_which rest
      | None => first_which rest
      end
  end.

(** [for raw in candidates: candidate = Path(raw); if
    candidate.exists(): return candidate, False] *)
Fixpoint first_existing (candidates : list string) : Py (option (Path * bool)) :=
  match candidates with
  | [] => ret None
  | raw :: rest =>
      let candidate := Path_of h raw in
      e <- Path_exists candidate ;;
      if e then ret (Some (candidate, false)) else first_existing rest
  end.

Definition candidates : list string :=
  [ "C:\Program Files\LibreOffice\program\soffice.exe";
    "C:\Program Files (x86)\LibreOffice\program\soffice.exe" ].

Definition not_found_message : string :=
  "LibreOffice not found. Install it, set LIBREOFFICE_PATH, or use WSL.".

(** The Windows block of [find_libreoffice]; [None] when it falls out
    of the [if] without returning. *)
Definition find_on_windows : Py (option (Path * bool)) :=
  r <- first_which ["soffice.exe"; "soffice"] ;;
  match r with
  | Some loc => ret (Some loc)
  | None =>
      r <- first_existing candidates ;;
      match r with
      | Some loc => ret (Some loc)
      | None =>
          w <- which "wsl" ;;
          if PyStr.truthy_opt w then ret (Some (Path_of h "wsl", true))
          else ret None
      end
  end.

Definition find_libreoffice : Py (Path * bool) :=
  env_path <- os_environ "LIBREOFFICE_PATH" ;;
  if PyStr.truthy_opt env_path then
    let candidate := Path_of h (default EmptyString env_path) in
    e <- Path_exists candidate ;;
    if e then ret (candidate, false)
    else raise (FileNotFoundError ("LIBREOFFICE_PATH not found: " +:+ str candidate))
  else
    sys <- system ;;
    early <- (if String.eqb sys "Windows" then find_on_windows else ret None) ;;
    match early with
    | Some loc => ret loc
    | None =>
        r <- first_which ["soffice"; "libreoffice"] ;;
        match r with
        | Some loc => ret loc
        | None => raise (FileNotFoundError not_found_message)
        end
    end.

Definition _windows_to_wsl_path (win_path : Path) : string :=
  let path_str := str (resolve h win_path) in
  if (2 <=? PyStr.len path_str) &&
     bool_decide (PyStr.index path_str 1 = Some ":"%char)
  then
    let drive := PyStr.lower (PyStr.item path_str 0) in
    let rest := PyStr.replace "\" "/" (PyStr.slice_from 2 path_str) in
    "/mnt/" +:+ drive +:+ rest
  else PyStr.replace "\" "/" path_str.

Definition _build_convert_command
    (soffice_path input_path out_dir : Path) (use_wsl : bool) : list string :=
  if use_wsl then
    let wsl_input := _windows_to_wsl_path input_path in
    let wsl_out_dir := _windows_to_wsl_path out_dir in
    [ "wsl"; "soffice"; "--headless"; "--convert-to"; "pdf"; "--outdir";
      wsl_out_dir; wsl_input ]
  else
    [ str soffice_path; "--headless"; "--convert-to"; "pdf"; "--outdir";
      str out_dir; str input_path ].

Definition conversion_failed : string := "LibreOffice conversion failed.".
Definition no_pdf_output : string := "LibreOffice did not produce a PDF output.".

(** The body of the [with] block of [convert_docx_to_pdf]. *)
Definition convert_in
    (soffice_path : Path) (use_wsl : bool) (input_path output_path : Path)
    (tmp_dir : string) : Py unit :=
  let tmp_out_dir := Path_of h tmp_dir in
  let command :=
    _build_convert_command soffice_path input_path tmp_out_dir use_wsl in
  result <- subprocess_run command ;;
  if negb (returncode result =? 0)%Z then
    let stderr := PyStr.or_ (PyStr.strip (stderr result)) conversion_failed in
    raise (RuntimeError stderr)
  else
    let tmp_pdf :=
      PurePath.joinpath tmp_out_dir (PurePath.stem input_path +:+ ".pdf") in
    e <- Path_exists tmp_pdf ;;
    if negb e then raise (RuntimeError no_pdf_output)
    else
      Path_mkdir (PurePath.parent output_path) ;;;
      shutil_move tmp_pdf output_path.

Definition convert_docx_to_pdf (input_path output_path : Path) : Py unit :=
  loc <- find_libreoffice ;;
  let '(soffice_path, use_wsl) := loc in
  TemporaryDirectory (convert_in soffice_path use_wsl input_path output_path).

End Program.

(** ** Proof automation *)

Create HintDb py_ops.
#[global] Hint Unfold bind ret raise log get_fs put_fs try_except try_finally : py_ops.

(** Open the operations of the monad. *)
Ltac py_unfold := autounfold with py_ops in *; cbn in *.

(** Split on what the search path and the file system answer to the
    probes of the locator. *)
Ltac probe_cases :=
  repeat (cbn;
    match goal with
    | |- context [shutil_which ?h ?n] =>
        let E := fresh "W" in
        destruct (shutil_which h n) as [?|] eqn:E
    | |- context [PyStr.truthy ?x] =>
        let E := fresh "T" in destruct (PyStr.truthy x) eqn:E
    | |- context [fs_exists ?f ?q] =>
        let E := fresh "X" in destruct (fs_exists f q) eqn:E
    end).

(** ** Two concrete hosts, for running the program

    A Windows-like and a POSIX-like flavour of [Path(s)] and
    [path.resolve()], without links: enough of [ntpath] and [posixpath]
    to run the program on examples. *)

Module Hosts.

Definition is_nt_sep (c : ascii) : bool :=
  Ascii.eqb c "\" || Ascii.eqb c "/".

Definition is_posix_sep (c : ascii) : bool := Ascii.eqb c "/".

(** The pieces of [s] between separators, [cur] being the piece under
    way. *)
Fixpoint split_on (is_sep : ascii -> bool) (s cur : string) : list string :=
  match s with
  | EmptyString => [cur]
  | String c t =>
      if is_sep c then cur :: split_on is_sep t EmptyString
      else split_on is_sep t (cur +:+ PyStr.of_char c)
  end.

(** Empty pieces and single dots are not components. *)
Definition components (is_sep : ascii -> bool) (s : string) : list string :=
  filter (fun x => x <> EmptyString /\ x <> ".") (split_on is_sep s EmptyString).

Definition starts_with_sep (is_sep : ascii -> bool) (s : string) : bool :=
  match s with
  | String c _ => is_sep c
  | EmptyString => false
  end.

(** [WindowsPath(s)]: a drive is one character and a colon. *)
Definition nt_parse (s : string) : Path :=
  let has_drive := bool_decide (PyStr.index s 1 = Some ":"%char) in
  let drive := if has_drive then PyStr.slice_to 2 s else EmptyString in
  let rest := if has_drive then PyStr.slice_from 2 s else s in
  let root := if starts_with_sep is_nt_sep rest then "\" else EmptyString in
  mkPath (drive +:+ root) (components is_nt_sep rest).

(** [PosixPath(s)] *)
Definition posix_parse (s : string) : Path :=
  mkPath (if starts_with_sep is_posix_sep s then "/" else EmptyString)
         (components is_posix_sep s).

(** Double dots climb one component. *)
Definition collapse (l : list string) : list string :=
  fold_left (fun acc x => if bool_decide (x = "..") then removelast acc
                          else acc ++ [x]) l [].

(** [resolve()] on Windows from the working directory [cwd], itself
    absolute: a path with a drive and a root stays, a rooted path
    takes the drive of [cwd], a relative one hangs below [cwd]. *)
Definition nt_resolve (cwd p : Path) : Path :=
  match anchor p with
  | EmptyString => mkPath (anchor cwd) (collapse (parts cwd ++ parts p))
  | "\" => mkPath (anchor cwd) (collapse (parts p))
  | a => mkPath a (collapse (parts p))
  end.

(** [resolve()] on POSIX from the working directory [cwd]. *)
Definition posix_resolve (cwd p : Path) : Path :=
  match anchor p with
  | EmptyString => mkPath (anchor cwd) (collapse (parts cwd ++ parts p))
  | a => mkPath a (collapse (parts p))
  end.

Definition lookup_table (t : list (string * string)) (k : string) : option string :=
  snd <$> List.find (fun kv => String.eqb (fst kv) k) t.

(** A process that cannot be started. *)
Definition no_process (cmd : list string) (f : FS)
    : (Errno * string + CompletedProcess) * FS :=
  (inl (ENOENT, List.hd EmptyString cmd), f).

(** A process that exits with [code] after writing [text] to its error
    stream, and leaves the file system as it is. *)
Definition exits (code : Z) (text : string) (cmd : list string) (f : FS)
    : (Errno * string + CompletedProcess) * FS :=
  (inr {| returncode := code; stdout := EmptyString; stderr := text |}, f).

(** A converter that does its work: it writes [<stem>.pdf], for the
    input named last, into the directory named before it. *)
Definition converts (parse : string -> Path) (cmd : list string) (f : FS)
    : (Errno * string + CompletedProcess) * FS :=
  let input := parse (List.last cmd EmptyString) in
  let out_dir := parse (List.last (removelast cmd) EmptyString) in
  let pdf := PurePath.joinpath out_dir (PurePath.stem input +:+ ".pdf") in
  (inr {| returncode := 0; stdout := EmptyString; stderr := EmptyString |},
   fs_set pdf (Some (File "%PDF-1.7")) f).

Definition windows (env whichs : list (string * string)) (cwd : Path)
    (process : list string -> FS -> (Errno * string + CompletedProcess) * FS)
    : Host :=
  {| os_environ_get := lookup_table env;
     platform_system := "Windows";
     shutil_which := lookup_table whichs;
     os_sep := "\";
     Path_of := nt_parse;
     resolve := nt_resolve cwd;
     mkdtemp_name := fun _ => "C:\Temp\tmpa1b2c3";
     spawn := process |}.

Definition linux (env whichs : list (string * string)) (cwd : Path)
    (process : list string -> FS -> (Errno * string + CompletedProcess) * FS)
    : Host :=
  {| os_environ_get := lookup_table env;
     platform_system := "Linux";
     shutil_which := lookup_table whichs;
     os_sep := "/";
     Path_of := posix_parse;
     resolve := posix_resolve cwd;
     mkdtemp_name := fun _ => "/tmp/tmpa1b2c3";
     spawn := process |}.

(** A file system holding the directories [dirs] and nothing else. *)
Definition fs_of_dirs (dirs : list Path) : FS :=
  fun q => if bool_decide (q ∈ dirs) then Some Dir else None.

Definition start (f : FS) : State := mkState f [].

End Hosts.

(** ** Vocabulary of the specification *)

(** A letter of a drive designator: A-Z or a-z. *)
Definition is_drive_letter (c : ascii) : bool :=
  let n := nat_of_ascii c in
  ((65 <=? n) && (n <=? 90)) || ((97 <=? n) && (n <=? 122)).

(** A letter a-z. *)
Definition is_lower_letter (c : ascii) : bool :=
  let n := nat_of_ascii c in (97 <=? n) && (n <=? 122).

(** The drive pattern of the specification: one letter, then a colon. *)
Definition has_drive_letter (s : string) : bool :=
  match s with
  | String d (String c _) => is_drive_letter d && Ascii.eqb c ":"
  | _ => false
  end.

(** A Windows absolute path: a drive letter, a colon and a separator. *)
Definition is_windows_absolute (s : string) : bool :=
  match s with
  | String d (String c (String r _)) =>
      is_drive_letter d && Ascii.eqb c ":" && Hosts.is_nt_sep r
  | _ => false
  end.

(** What the substitution does to one character. *)
Definition slash_of (c : ascii) : ascii :=
  if Ascii.eqb c "\" then "/"%char else c.

(** ** The resolution order of the specification

    The locator of section 4.1 in the specification's own words: an
    ordered list of probes, tried one after the other, the first hit
    winning. *)

Module Locator.

Inductive Probe :=
| OnSearchPath (name : string)
| Installed (raw : string)
| BridgeLauncher.

(** The probes in their order: on Windows the known executable names on
    the search path, the well-known installation directories and the
    bridge launcher; on every system the primary name and the legacy
    alias. *)
Definition probes (system : string) : list Probe :=
  (if String.eqb system "Windows" then
     [ OnSearchPath "soffice.exe"; OnSearchPath "soffice";
       Installed "C:\Program Files\LibreOffice\program\soffice.exe";
       Installed "C:\Program Files (x86)\LibreOffice\program\soffice.exe";
       BridgeLauncher ]
   else []) ++
  [ OnSearchPath "soffice"; OnSearchPath "libreoffice" ].

(** What a probe finds: an executable location and whether it is
    bridged. *)
Definition hit (h : Host) (f : FS) (pr : Probe) : option (Path * bool) :=
  match pr with
  | OnSearchPath name =>
      match shutil_which h name with
      | Some found =>
          if PyStr.truthy found then Some (Path_of h found, false) else None
      | None => None
      end
  | Installed raw =>
      if fs_exists f (Path_of h raw) then Some (Path_of h raw, false) else None
  | BridgeLauncher =>
      if PyStr.truthy_opt (shutil_which h "wsl")
      then Some (Path_of h "wsl", true) else None
  end.

(** The library call a probe makes. *)
Definition event (h : Host) (pr : Probe) : Event :=
  match pr with
  | OnSearchPath name => Which name
  | Installed raw => PathExists (Path_of h raw)
  | BridgeLauncher => Which "wsl"
  end.

(** First match wins: the probes tried, and the hit if there is one. *)
Fixpoint first_match (h : Host) (f : FS) (l : list Probe)
    : list Probe * option (Path * bool) :=
  match l with
  | [] => ([], None)
  | pr :: rest =>
      match hit h f pr with
      | Some loc => ([pr], Some loc)
      | None =>
          let (tried, r) := first_match h f rest in (pr :: tried, r)
      end
  end.

Definition locate (h : Host) (f : FS) : Outcome (Path * bool) :=
  match snd (first_match h f (probes (platform_system h))) with
  | Some loc => Return loc
  | None => Raise (FileNotFoundError (not_found_message))
  end.

End Locator.

(** The name of the override environment variable. *)
Definition override : string := "LIBREOFFICE_PATH".

(** The flags of a conversion into the directory [d]: headless
    execution, the target format and the output directory. *)
Definition conversion_flags (d : string) : list string :=
  [ "--headless"; "--convert-to"; "pdf"; "--outdir"; d ].

(** ** The stages of a conversion started on the file system [f] *)

(** The temporary directory. *)
Definition tmp_out_dir_of (h : Host) (f : FS) : Path :=
  Path_of h (mkdtemp_name h f).

(** Where the converter is expected to leave the PDF. *)
Definition tmp_pdf_of (h : Host) (f : FS) (input_path : Path) : Path :=
  PurePath.joinpath (tmp_out_dir_of h f) (PurePath.stem input_path +:+ ".pdf").

(** The command run for the location [loc]. *)
Definition command_of (h : Host) (f : FS) (loc : Path * bool)
    (input_path : Path) : list string :=
  _build_convert_command h (fst loc) input_path (tmp_out_dir_of h f) (snd loc).

(** The external process on the file system that holds the temporary
    directory: how it ended and what it left. *)
Definition process_of (h : Host) (f : FS) (loc : Path * bool)
    (input_path : Path) : (Errno * string + CompletedProcess) * FS :=
  spawn h (command_of h f loc input_path)
        (fs_set (tmp_out_dir_of h f) (Some Dir) f).

(** The message of the error raised for a process that exited with a
    non-zero code and the error stream [text]. *)
Definition failure_message (text : string) : string :=
  match PyStr.strip text with
  | EmptyString => "LibreOffice conversion failed."
  | trimmed => trimmed
  end.


(** A computation that leaves the file system as it found it. *)
Definition reads_only {A} (m : Py A) : Prop :=
  forall s, fs (snd (m s)) = fs s.

(** What a computation answers hangs on the file system alone. *)
Definition fs_determined {A} (m : Py A) : Prop :=
  forall s s', fs s = fs s' -> fst (m s) = fst (m s').

(** What a successful [mkdir] has done: the path is a directory, and
    whatever changed was missing, is a directory now, and is the path or
    lies above it. *)
Definition mkdir_post (p : Path) (s s' : State) : Prop :=
  trace s' = trace s /\
  fs_isdir (fs s') p = true /\
  forall q,
    fs s' q = fs s q \/
    (fs s q = None /\ fs s' q = Some Dir /\
     PurePath.is_relative_to p q = true /\ parts q <> []).


(** ** Example machines *)

Module Examples.

(** A Windows machine with nothing installed, working in a user's
    directory on drive C. *)
Definition win : Host :=
  Hosts.windows [] [] (Hosts.nt_parse "C:\Users\x") Hosts.no_process.

(** The bridge side: a Linux machine working in a home directory. *)
Definition wsl : Host :=
  Hosts.linux [] [] (Hosts.posix_parse "/home/x") Hosts.no_process.

(** A Linux machine with LibreOffice on the search path and the override
    variable set to the empty string. *)
Definition empty_override : Host :=
  Hosts.linux [("LIBREOFFICE_PATH", EmptyString)]
              [("soffice", "/usr/bin/soffice")]
              (Hosts.posix_parse "/home/x") Hosts.no_process.

(** A Linux machine with the override variable naming [/opt/lo/soffice]
    and another LibreOffice on the search path. *)
Definition pinned : Host :=
  Hosts.linux [("LIBREOFFICE_PATH", "/opt/lo/soffice")]
              [("soffice", "/usr/bin/soffice")]
              (Hosts.posix_parse "/home/x") Hosts.no_process.

(** A Windows machine whose only way to LibreOffice is the bridge. *)
Definition bridged : Host :=
  Hosts.windows [] [("wsl", "C:\Windows\System32\wsl.exe")]
                (Hosts.nt_parse "C:\Users\x") Hosts.no_process.

(** The working directory, and nothing else. *)
Definition bare : State :=
  Hosts.start (Hosts.fs_of_dirs [mkPath EmptyString []]).

(** A Linux machine with LibreOffice on the search path, running the
    process [process]. *)
Definition office
    (process : list string -> FS -> (Errno * string + CompletedProcess) * FS)
    : Host :=
  Hosts.linux [] [("soffice", "/usr/bin/soffice")]
              (Hosts.posix_parse "/home/x") process.

(** The converter does its work. *)
Definition working : Host := office (Hosts.converts Hosts.posix_parse).

(** The converter gives up with a message between blanks. *)
Definition failing : Host :=
  office (Hosts.exits 1 "  Error: source file could not be loaded  ").



Definition report : Path := Hosts.posix_parse "report.docx".
Definition final : Path := Hosts.posix_parse "out/final.pdf".
Definition out : Path := Hosts.posix_parse "out".
Definition tmp : Path := Hosts.posix_parse "/tmp/tmpa1b2c3".

(** The working directory and [/tmp]. *)
Definition desk : State :=
  Hosts.start (Hosts.fs_of_dirs [mkPath EmptyString []; Hosts.posix_parse "/tmp"]).

(** The same with a directory [out] in the working directory. *)
Definition desk_with_out : State :=
  Hosts.start (Hosts.fs_of_dirs
                 [mkPath EmptyString []; Hosts.posix_parse "/tmp"; out]).

(** The same with a directory [out] that holds an older [final.pdf]. *)
Definition desk_with_old : State :=
  Hosts.start (fun q =>
    if bool_decide (q = final) then Some (File "%PDF-1.4 old")
    else fs desk_with_out q).


End Examples.

(** ** The rest of the program: [is_wsl] and the command line *)

(** [s.startswith(prefix)] *)
Fixpoint str_startswith (prefix s : string) : bool :=
  match prefix, s with
  | EmptyString, _ => true
  | String a p, String b t => Ascii.eqb a b && str_startswith p t
  | String _ _, EmptyString => false
  end.

(** [needle in hay] on strings. *)
Fixpoint str_contains (needle hay : string) : bool :=
  str_startswith needle hay ||
  match hay with
  | EmptyString => false
  | String _ t => str_contains needle t
  end.

(** [with open(name, "r") as f: f.read()]: the text of the file;
    FileNotFoundError when nothing is there. A directory cannot be read:
    that raises an OSError that is no FileNotFoundError (IsADirectoryError
    on POSIX, PermissionError on Windows), written with [EACCES] here. *)
Definition open_read (h : Host) (name : string) : Py string :=
  f <- get_fs ;;
  match f (Path_of h name) with
  | None =>
      raise (FileNotFoundError
               ("[Errno 2] No such file or directory: '" +:+ name +:+ "'"))
  | Some (File text) => ret text
  | Some Dir => raise (OSError EACCES ("Is a directory: '" +:+ name +:+ "'"))
  end.

Definition is_wsl (h : Host) : Py bool :=
  try_except
    (text <- open_read h "/proc/version" ;;
     ret (str_contains "microsoft" (PyStr.lower text)))
    (fun e =>
       match e with
       | FileNotFoundError _ => Some (ret false)
       | _ => None
       end).

(** What [print] has written: the lines on the standard output and on
    the standard error, oldest first. *)
Record Console := mkConsole { out_lines : list string; err_lines : list string }.

(** [print(line)] *)
Definition print_out (line : string) (c : Console) : Console :=
  mkConsole (out_lines c ++ [line]) (err_lines c).

(** [print(line, file=sys.stderr)] *)
Definition print_err (line : string) (c : Console) : Console :=
  mkConsole (out_lines c) (err_lines c ++ [line]).

(** [main] of cli.py from the parsed arguments on (lines 36 to 49):
    [input_path] and [output_path] are [args.input] and [args.output].
    The value is the exit code; an exception that no [except] clause
    takes leaves [main]. The text of an exception is its message. *)
Definition main (h : Host) (input_path output_path : Path)
    (s : State) (c : Console) : Outcome Z * State * Console :=
  match Path_exists input_path s with
  | (Raise e, s1) => (Raise e, s1, c)
  | (Return false, s1) =>
      (Return 1%Z, s1,
       print_err ("Error: Input file not found: " +:+ str h input_path) c)
  | (Return true, s1) =>
      match convert_docx_to_pdf h input_path output_path s1 with
      | (Return _, s2) =>
          (Return 0%Z, s2,
           print_out ("Successfully converted: " +:+ str h input_path +:+
                      " -> " +:+ str h output_path) c)
      | (Raise (FileNotFoundError msg), s2) =>
          (Return 1%Z, s2, print_err ("Error: " +:+ msg) c)
      | (Raise (RuntimeError msg), s2) =>
          (Return 1%Z, s2, print_err ("Conversion error: " +:+ msg) c)
      | (Raise e, s2) => (Raise e, s2, c)
      end
  end.

(** The state in which [main] calls the converter: the input has been
    looked for. *)
Definition checked (input_path : Path) (s : State) : State :=
  mkState (fs s) (trace s ++ [PathExists input_path]).


(** ** The library where a call can fail

    The calls of section [Program] are the library where every call is
    answered: [Path.exists] tells whether something lies at the path,
    the captured streams are text, [Path.mkdir] has the stack it needs.
    On a machine a call can also fail on its own account:
    - [Path.exists()], in pathlib up to 3.13, raises the OSError of
      [os.stat] unless its errno is ENOENT, ENOTDIR, EBADF or ELOOP:
      EACCES where a directory may not be searched, ENAMETOOLONG for an
      over-long name;
    - [subprocess.run(..., text=True)] raises ValueError for an argument
      with a null byte, and UnicodeDecodeError, a ValueError, when a
      captured stream is not text in the encoding of the locale;
    - [Path.mkdir(parents=True)] calls itself once for each missing
      level and raises RecursionError, a RuntimeError, when the stack of
      the interpreter is used up;
    - [tempfile.TemporaryDirectory()], [Path.resolve()], [Path.mkdir],
      [shutil.move] and the removal of the temporary directory raise
      where the machine refuses them.
    [Real] is the program over that library: each call asks the platform
    first whether it fails, and is the call of section [Program] when it
    does not. The file system stays the one of the model: a path stands
    for what it names, which holds for paths without a double-dot
    component on a file system without links. *)

Module Real.

(** The library calls that can fail on their own account. *)
Inductive Call :=
| ExistsCall (p : Path)
| ResolveCall (p : Path)
| MkdtempCall
| SpawnCall (command : list string)
| DecodeCall (result : CompletedProcess)
| MkdirCall (p : Path)
| MoveCall (src dst : Path)
| CleanupCall (p : Path).

Record Platform := {
  host : Host;
  (** the exception with which a call fails on its own account, when it
      does; [DecodeCall result] is the decoding of the captured streams:
      [result] holds their text when the call is answered, and their
      bytes, a character each, when it is not *)
  fault : Call -> option Exc;
  (** how many calls of [Path.mkdir], one inside the other, the stack of
      the interpreter has room for when the converter calls it *)
  recursion_left : nat
}.

(** RecursionError, with the text of the interpreter. *)
Definition recursion_error : Exc :=
  RuntimeError "maximum recursion depth exceeded while calling a Python object".

(** *** The calls of a run *)


(** The existence checks the locator can make. *)
Definition locator_calls (h : Host) : list Call :=
  ExistsCall (Path_of h (default EmptyString (os_environ_get h override))) ::
  map (fun raw => ExistsCall (Path_of h raw)) candidates.








Section Library.

Context (pf : Platform).

(** The call fails with the exception of the platform, or goes on. *)
Definition check (c : Call) : Py unit :=
  fun s =>
    match fault pf c with
    | Some e => (Raise e, s)
    | None => (Return tt, s)
    end.

Definition Path_exists (p : Path) : Py bool :=
  log (PathExists p) ;;;
  check (ExistsCall p) ;;;
  f <- get_fs ;; ret (fs_exists f p).

(** [subprocess.run(command, capture_output=True, text=True)]: the
    command is handed over, the process runs to its end, and its streams
    are decoded. *)
Definition subprocess_run (command : list string) : Py CompletedProcess :=
  log (SubprocessRun command) ;;;
  check (SpawnCall command) ;;;
  f <- get_fs ;;
  match spawn (host pf) command f with
  | (inl (e, msg), f') => put_fs f' ;;; raise (OSError e msg)
  | (inr result, f') => put_fs f' ;;; check (DecodeCall result) ;;; ret result
  end.

(** [p.mkdir(parents=True, exist_ok=True)] with [n] calls left on the
    stack: the call itself takes one. *)
Fixpoint mkdir_rec (n : nat) (p : Path) : Py unit :=
  match n with
  | O => raise recursion_error
  | S n' =>
      try_except (os_mkdir (host pf) p) (fun e =>
        match e with
        | FileNotFoundError _ =>
            if decide (PurePath.parent p = p) then None
            else
              Some (mkdir_rec n' (PurePath.parent p) ;;;
                    try_except (os_mkdir (host pf) p) (fun e' =>
                      match e' with
                      | FileNotFoundError _ => None
                      | _ => unless_is_dir p e'
                      end))
        | _ => unless_is_dir p e
        end)
  end.

Definition Path_mkdir (p : Path) : Py unit :=
  log (Mkdir p) ;;;
  check (MkdirCall p) ;;;
  mkdir_rec (recursion_left pf) p.

Definition shutil_move (src dst : Path) : Py unit :=
  check (MoveCall src dst) ;;; shutil_move (host pf) src dst.

(** [with tempfile.TemporaryDirectory() as tmp_dir: body]. When the
    removal on the way out fails, its exception takes the place of the
    outcome of [body]; what is left of the directory is not told by the
    library, and is all of it here. *)
Definition TemporaryDirectory {A} (body : string -> Py A) : Py A :=
  check MkdtempCall ;;;
  f <- get_fs ;;
  let tmp_dir := mkdtemp_name (host pf) f in
  log (Mkdtemp (Path_of (host pf) tmp_dir)) ;;;
  put_fs (fs_set (Path_of (host pf) tmp_dir) (Some Dir) f) ;;;
  fun s =>
    let (r, s') := body tmp_dir s in
    let t := trace s' ++ [Cleanup (Path_of (host pf) tmp_dir)] in
    match fault pf (CleanupCall (Path_of (host pf) tmp_dir)) with
    | Some e => (Raise e, mkState (fs s') t)
    | None => (r, mkState (fs_rmtree (Path_of (host pf) tmp_dir) (fs s')) t)
    end.

(** *** converter.py *)

Fixpoint first_existing (candidates : list string) : Py (option (Path * bool)) :=
  match candidates with
  | [] => ret None
  | raw :: rest =>
      let candidate := Path_of (host pf) raw in
      e <- Path_exists candidate ;;
      if e then ret (Some (candidate, false)) else first_existing rest
  end.

Definition find_on_windows : Py (option (Path * bool)) :=
  r <- first_which (host pf) ["soffice.exe"; "soffice"] ;;
  match r with
  | Some loc => ret (Some loc)
  | None =>
      r <- first_existing candidates ;;
      match r with
      | Some loc => ret (Some loc)
      | None =>
          w <- which (host pf) "wsl" ;;
          if PyStr.truthy_opt w then ret (Some (Path_of (host pf) "wsl", true))
          else ret None
      end
  end.

Definition find_libreoffice : Py (Path * bool) :=
  env_path <- os_environ (host pf) "LIBREOFFICE_PATH" ;;
  if PyStr.truthy_opt env_path then
    let candidate := Path_of (host pf) (default EmptyString env_path) in
    e <- Path_exists candidate ;;
    if e then ret (candidate, false)
    else raise (FileNotFoundError
                  ("LIBREOFFICE_PATH not found: " +:+ str (host pf) candidate))
  else
    sys <- system (host pf) ;;
    early <- (if String.eqb sys "Windows" then find_on_windows else ret None) ;;
    match early with
    | Some loc => ret loc
    | None =>
        r <- first_which (host pf) ["soffice"; "libreoffice"] ;;
        match r with
        | Some loc => ret loc
        | None => raise (FileNotFoundError not_found_message)
        end
    end.

(** The translator with the call of [resolve()] that opens it. *)
Definition _windows_to_wsl_path (win_path : Path) : Py string :=
  check (ResolveCall win_path) ;;;
  ret (_windows_to_wsl_path (host pf) win_path).

Definition _build_convert_command
    (soffice_path input_path out_dir : Path) (use_wsl : bool)
    : Py (list string) :=
  if use_wsl then
    wsl_input <- _windows_to_wsl_path input_path ;;
    wsl_out_dir <- _windows_to_wsl_path out_dir ;;
    ret [ "wsl"; "soffice"; "--headless"; "--convert-to"; "pdf"; "--outdir";
          wsl_out_dir; wsl_input ]
  else
    ret [ str (host pf) soffice_path; "--headless"; "--convert-to"; "pdf";
          "--outdir"; str (host pf) out_dir; str (host pf) input_path ].

Definition convert_in
    (soffice_path : Path) (use_wsl : bool) (input_path output_path : Path)
    (tmp_dir : string) : Py unit :=
  let tmp_out_dir := Path_of (host pf) tmp_dir in
  command <-
    _build_convert_command soffice_path input_path tmp_out_dir use_wsl ;;
  result <- subprocess_run command ;;
  if negb (returncode result =? 0)%Z then
    let stderr := PyStr.or_ (PyStr.strip (stderr result)) conversion_failed in
    raise (RuntimeError stderr)
  else
    let tmp_pdf :=
      PurePath.joinpath tmp_out_dir (PurePath.stem input_path +:+ ".pdf") in
    e <- Path_exists tmp_pdf ;;
    if negb e then raise (RuntimeError no_pdf_output)
    else
      Path_mkdir (PurePath.parent output_path) ;;;
      shutil_move tmp_pdf output_path.

Definition convert_docx_to_pdf (input_path output_path : Path) : Py unit :=
  loc <- find_libreoffice ;;
  let '(soffice_path, use_wsl) := loc in
  TemporaryDirectory (convert_in soffice_path use_wsl input_path output_path).

(** *** cli.py *)

Definition main (input_path output_path : Path)
    (s : State) (c : Console) : Outcome Z * State * Console :=
  match Path_exists input_path s with
  | (Raise e, s1) => (Raise e, s1, c)
  | (Return false, s1) =>
      (Return 1%Z, s1,
       print_err ("Error: Input file not found: " +:+ str (host pf) input_path) c)
  | (Return true, s1) =>
      match convert_docx_to_pdf input_path output_path s1 with
      | (Return _, s2) =>
          (Return 0%Z, s2,
           print_out ("Successfully converted: " +:+ str (host pf) input_path +:+
                      " -> " +:+ str (host pf) output_path) c)
      | (Raise (FileNotFoundError msg), s2) =>
          (Return 1%Z, s2, print_err ("Error: " +:+ msg) c)
      | (Raise (RuntimeError msg), s2) =>
          (Return 1%Z, s2, print_err ("Conversion error: " +:+ msg) c)
      | (Raise e, s2) => (Raise e, s2, c)
      end
  end.

End Library.

End Real.

(** ** More example machines *)

Module Scenes.

Definition proc_version : Path := Hosts.posix_parse "/proc/version".

(** A kernel that names its maker in small letters, as WSL 2 does. *)
Definition on_wsl2 : State :=
  Hosts.start (fun q =>
    if bool_decide (q = proc_version)
    then Some (File "Linux version 5.15.153.1-microsoft-standard-WSL2 (gcc 11.2.0)")
    else None).

(** A kernel that names it with a capital, as WSL 1 does. *)
Definition on_wsl1 : State :=
  Hosts.start (fun q =>
    if bool_decide (q = proc_version)
    then Some (File "Linux version 4.4.0-19041-Microsoft (gcc version 5.4.0)")
    else None).

(** A machine without [/proc/version]. *)
Definition no_proc : State := Hosts.start (fun _ => None).

(** The desk of the examples with the document to convert on it. *)
Definition with_report (s : State) : State :=
  Hosts.start (fun q =>
    if bool_decide (q = Examples.report) then Some (File "PK docx")
    else fs s q).

Definition desk : State := with_report Examples.desk.
Definition desk_with_out : State := with_report Examples.desk_with_out.
Definition desk_with_old : State := with_report Examples.desk_with_old.



(** A Linux machine without LibreOffice. *)
Definition without_office : Host :=
  Hosts.linux [] [] (Hosts.posix_parse "/home/x") Hosts.no_process.

Definition quiet : Console := mkConsole [] [].

(** A Windows machine working in a directory of drive C whose name is
    written with a small [c]. *)
Definition win_small : Host :=
  Hosts.windows [] [] (Hosts.nt_parse "c:\Users\x") Hosts.no_process.

(** A platform on which every call is answered. *)
Definition steady (h : Host) : Real.Platform :=
  {| Real.host := h;
     Real.fault := fun _ => None;
     Real.recursion_left := 900 |}.

(** A name of [n] letters. *)
Fixpoint letters (n : nat) : string :=
  match n with
  | O => EmptyString
  | S k => String "a" (letters k)
  end.

(** A component of the path has more than 255 characters. *)
Definition name_too_long (p : Path) : bool :=
  existsb (fun x => 255 <? String.length x) (parts p).

(** A file system whose names have up to 255 characters: the look at a
    longer one, and the making of it, fail with ENAMETOOLONG. *)
Definition short_names (h : Host) : Real.Platform :=
  {| Real.host := h;
     Real.fault := fun c =>
       match c with
       | Real.ExistsCall p | Real.MkdirCall p =>
           if name_too_long p
           then Some (OSError ENAMETOOLONG
                        ("[Errno 36] File name too long: '" +:+ str h p +:+ "'"))
           else None
       | _ => None
       end;
     Real.recursion_left := 900 |}.

(** The override names an installation of 300 letters. *)
Definition long_override : Host :=
  Hosts.linux [("LIBREOFFICE_PATH", "/opt/" +:+ letters 300)]
              [("soffice", "/usr/bin/soffice")]
              (Hosts.posix_parse "/home/x") Hosts.no_process.

(** A document whose name has 300 letters. *)
Definition long_report : Path := Hosts.posix_parse (letters 300 +:+ ".docx").


(** An interpreter with room for two calls of [Path.mkdir]. *)
Definition shallow (h : Host) : Real.Platform :=
  {| Real.host := h;
     Real.fault := fun _ => None;
     Real.recursion_left := 2 |}.

(** An output path three missing directories down. *)
Definition deep : Path := Hosts.posix_parse "a/b/c/final.pdf".

End Scenes.

(** ** Facts about the string operations *)

Section StringFacts.

Lemma replace_slash_index (s : string) (i : nat) :
  PyStr.index (PyStr.replace "\" "/" s) i = slash_of <$> PyStr.index s i.
Proof.
  revert i. induction s as [|c t IH]; intros i; [reflexivity|].
  unfold slash_of in *. cbn [PyStr.replace].
  destruct (Ascii.eqb c "\") eqn:E; destruct i as [|i]; cbn;
    rewrite ?E; try reflexivity; apply IH.
Qed.

Lemma replace_slash_len (s : string) :
  PyStr.len (PyStr.replace "\" "/" s) = PyStr.len s.
Proof.
  unfold PyStr.len. induction s as [|c t IH]; [reflexivity|].
  cbn [PyStr.replace]. destruct (Ascii.eqb c "\");
    cbv [String.append]; cbn; f_equal; exact IH.
Qed.

Lemma replace_slash_fixed (s : string) :
  (forall i, PyStr.index s i <> Some "\"%char) ->
  PyStr.replace "\" "/" s = s.
Proof.
  induction s as [|c t IH]; intros H; [reflexivity|].
  cbn [PyStr.replace]. destruct (Ascii.eqb_spec c "\") as [->|_].
  - exfalso. exact (H 0 eq_refl).
  - f_equal. apply IH. intros i. exact (H (S i)).
Qed.

Lemma replace_slash_clean (s : string) (i : nat) :
  PyStr.index (PyStr.replace "\" "/" s) i <> Some "\"%char.
Proof.
  rewrite replace_slash_index.
  destruct (PyStr.index s i) as [c|]; [|discriminate].
  cbn. unfold slash_of. destruct (Ascii.eqb_spec c "\"); congruence.
Qed.

Lemma replace_slash_idem (s : string) :
  PyStr.replace "\" "/" (PyStr.replace "\" "/" s) = PyStr.replace "\" "/" s.
Proof. apply replace_slash_fixed, replace_slash_clean. Qed.

Lemma append_cons (c : ascii) (a b : string) :
  String c a +:+ b = String c (a +:+ b).
Proof. reflexivity. Qed.







Lemma lower_drive_letter (d : ascii) :
  is_drive_letter d = true -> PyStr.lower_char d <> "\"%char.
Proof.
  destruct d as [[] [] [] [] [] [] [] []]; cbv; congruence.
Qed.

(** A drive letter is lower-cased to the letter a-z it names. *)
Lemma lower_drive_letter_range (d : ascii) :
  is_drive_letter d = true ->
  is_lower_letter (PyStr.lower_char d) = true /\
  (PyStr.lower_char d = d \/
   nat_of_ascii (PyStr.lower_char d) = nat_of_ascii d + 32).
Proof.
  destruct d as [[] [] [] [] [] [] [] []]; cbv; intros; try discriminate;
    split; auto.
Qed.

End StringFacts.

(** ** The path translator *)

Section Translator.

Context (h : Host).

(** The translator at a resolved string that has a colon second. *)
Lemma wsl_path_colon (p : Path) (d : ascii) (rest : string) :
  str h (resolve h p) = String d (String ":" rest) ->
  _windows_to_wsl_path h p =
    "/mnt/" +:+ PyStr.of_char (PyStr.lower_char d) +:+ PyStr.replace "\" "/" rest.
Proof. intros E. unfold _windows_to_wsl_path. rewrite E. reflexivity. Qed.

(** The translator at any other resolved string. *)
Lemma wsl_path_plain (p : Path) :
  (forall d rest, str h (resolve h p) <> String d (String ":" rest)) ->
  _windows_to_wsl_path h p = PyStr.replace "\" "/" (str h (resolve h p)).
Proof.
  intros N. unfold _windows_to_wsl_path.
  destruct (str h (resolve h p)) as [|d [|c rest]]; try reflexivity.
  cbn. case_bool_decide as E; [|reflexivity].
  exfalso. apply (N d rest). congruence.
Qed.

(** A resolved string without a colon second and without a backslash is
    returned as it is. *)
Lemma wsl_path_fixed (p : Path) :
  PyStr.index (str h (resolve h p)) 1 <> Some ":"%char ->
  (forall i, PyStr.index (str h (resolve h p)) i <> Some "\"%char) ->
  _windows_to_wsl_path h p = str h (resolve h p).
Proof.
  intros C B. rewrite wsl_path_plain.
  - apply replace_slash_fixed, B.
  - intros d rest E. apply C. rewrite E. reflexivity.
Qed.

End Translator.

(** C10. The drive test of the translator looks at nothing but the length
    of the resolved path string and its second character: whenever the
    string has at least two characters and a colon second, the result is
    the mount prefix, the lower-cased first character and the rest with
    backslashes turned, whatever the first character is; in every other
    case only the backslashes are turned. *)
Theorem drive_test_ignores_letter (h : Host) (p : Path) :
  let path_str := str h (resolve h p) in
  (2 <= PyStr.len path_str ->
   PyStr.index path_str 1 = Some ":"%char ->
   _windows_to_wsl_path h p =
     "/mnt/" +:+ PyStr.lower (PyStr.item path_str 0) +:+
     PyStr.replace "\" "/" (PyStr.slice_from 2 path_str)) /\
  (~ (2 <= PyStr.len path_str /\ PyStr.index path_str 1 = Some ":"%char) ->
   _windows_to_wsl_path h p = PyStr.replace "\" "/" path_str).
Proof.
  intros path_str. split.
  - intros _ E. subst path_str.
    destruct (str h (resolve h p)) as [|d [|c rest]] eqn:S; try discriminate.
    injection E as ->. exact (wsl_path_colon h p d rest S).
  - intros N. apply wsl_path_plain. intros d rest E. apply N.
    subst path_str. rewrite E. split; [cbn; lia | reflexivity].
Qed.

(** The path [1:\x], whose first character is a digit, is rewritten under
    the mount prefix. *)
Lemma drive_test_ignores_letter_witness :
  is_drive_letter "1" = false /\
  _windows_to_wsl_path Examples.win (Hosts.nt_parse "1:\x") = "/mnt/1/x".
Proof.
  split; [reflexivity|].
  apply (proj1 (drive_test_ignores_letter Examples.win (Hosts.nt_parse "1:\x"))).
  - vm_compute. lia.
  - reflexivity.
Defined.

(** C2, as the specification words it, fails: a resolved path with a
    colon second and no letter first, such as [1:\x], does not match the
    drive pattern and still is rewritten under the mount prefix instead
    of having only its backslashes turned. *)
Lemma drive_pattern_counterexample :
  ~ (forall (h : Host) (p : Path),
       let path_str := str h (resolve h p) in
       (forall d rest, is_drive_letter d = true ->
          path_str = String d (String ":" rest) ->
          _windows_to_wsl_path h p =
            "/mnt/" +:+ PyStr.of_char (PyStr.lower_char d) +:+
            PyStr.replace "\" "/" rest) /\
       (has_drive_letter path_str = false ->
          _windows_to_wsl_path h p = PyStr.replace "\" "/" path_str)).
Proof.
  intros H.
  destruct (H Examples.win (Hosts.nt_parse "1:\x")) as [_ H2].
  specialize (H2 eq_refl). vm_compute in H2. discriminate H2.
Qed.

(** C2, amended. For every resolved path string with a colon as its
    second character, whatever its first character, the translator
    returns [/mnt/], the lower-cased first character and the remainder
    with every backslash replaced by a forward slash; for every other
    path it returns the string with only that substitution applied: the
    length is kept and every character other than a backslash stays. A
    drive letter is lower-cased to the same letter in a-z. *)
Theorem windows_to_wsl_path_rewrite (h : Host) (p : Path) :
  let path_str := str h (resolve h p) in
  (forall d rest,
     path_str = String d (String ":" rest) ->
     _windows_to_wsl_path h p =
       "/mnt/" +:+ PyStr.of_char (PyStr.lower_char d) +:+
       PyStr.replace "\" "/" rest) /\
  ((forall d rest, path_str <> String d (String ":" rest)) ->
     _windows_to_wsl_path h p = PyStr.replace "\" "/" path_str) /\
  (forall s,
     PyStr.len (PyStr.replace "\" "/" s) = PyStr.len s /\
     forall i, PyStr.index (PyStr.replace "\" "/" s) i =
               slash_of <$> PyStr.index s i) /\
  (forall d,
     is_drive_letter d = true ->
     is_lower_letter (PyStr.lower_char d) = true /\
     (PyStr.lower_char d = d \/
      nat_of_ascii (PyStr.lower_char d) = nat_of_ascii d + 32)).
Proof.
  intros path_str. split; [|split; [|split]].
  - intros d rest E. exact (wsl_path_colon h p d rest E).
  - exact (wsl_path_plain h p).
  - intros s. split; [apply replace_slash_len | apply replace_slash_index].
  - exact lower_drive_letter_range.
Qed.

(** [C:\Users\x\f.docx] becomes [/mnt/c/Users/x/f.docx]. *)
Lemma windows_to_wsl_path_rewrite_witness :
  _windows_to_wsl_path Examples.win (Hosts.nt_parse "C:\Users\x\f.docx") =
  "/mnt/c/Users/x/f.docx".
Proof.
  exact (proj1 (windows_to_wsl_path_rewrite Examples.win
                  (Hosts.nt_parse "C:\Users\x\f.docx"))
               "C"%char "\Users\x\f.docx" eq_refl).
Defined.

(** C9, as the specification words it, fails on Windows: the output
    [/mnt/c/Users/x/f.docx] is a rooted path without a drive, which
    [resolve()] puts on the current drive, so that a second application
    rewrites it once more. *)
Lemma round_trip_counterexample :
  ~ (forall (h : Host) (p : Path),
       is_windows_absolute (str h (resolve h p)) = true ->
       _windows_to_wsl_path h (Path_of h (_windows_to_wsl_path h p)) =
       _windows_to_wsl_path h p).
Proof.
  intros H.
  specialize (H Examples.win (Hosts.nt_parse "C:\Users\x\f.docx") eq_refl).
  vm_compute in H. discriminate H.
Qed.

(** C9, amended. The translator returns a string and touches no state;
    for every valid Windows absolute path its result is fixed by the
    resolved path string, and applying it to its own output leaves the
    result unchanged on every machine where that output is its own
    resolved form, as it is on the bridge side. *)
Theorem wsl_path_deterministic_and_stable (h h1 h2 : Host) (p : Path) :
  is_windows_absolute (str h (resolve h p)) = true ->
  (str h1 (resolve h1 p) = str h (resolve h p) ->
   _windows_to_wsl_path h1 p = _windows_to_wsl_path h p) /\
  (let out := _windows_to_wsl_path h p in
   str h2 (resolve h2 (Path_of h2 out)) = out ->
   _windows_to_wsl_path h2 (Path_of h2 out) = out).
Proof.
  intros A. split.
  - intros E. unfold _windows_to_wsl_path. rewrite E. reflexivity.
  - destruct (str h (resolve h p)) as [|d [|c [|r rest]]] eqn:S; try discriminate.
    cbn in A. apply andb_prop in A as [A _]. apply andb_prop in A as [L C].
    apply Ascii.eqb_eq in C. subst c.
    rewrite (wsl_path_colon h p d _ S). cbn zeta. intros E.
    rewrite wsl_path_fixed; rewrite E; [reflexivity|discriminate|].
    intros [|[|[|[|[|[|i]]]]]]; try discriminate.
    + cbn. intros [= B]. exact (lower_drive_letter d L B).
    + apply (replace_slash_clean (String r rest) i).
Qed.

(** From [C:\Users\x\f.docx] on Windows to [/mnt/c/Users/x/f.docx], which
    the bridge side maps to itself. *)
Lemma wsl_path_deterministic_and_stable_witness :
  is_windows_absolute
    (str Examples.win (resolve Examples.win (Hosts.nt_parse "C:\Users\x\f.docx"))) = true /\
  _windows_to_wsl_path Examples.wsl
    (Path_of Examples.wsl "/mnt/c/Users/x/f.docx") = "/mnt/c/Users/x/f.docx".
Proof.
  split; [reflexivity|].
  exact (proj2 (wsl_path_deterministic_and_stable Examples.win Examples.win
                  Examples.wsl (Hosts.nt_parse "C:\Users\x\f.docx") eq_refl)
               eq_refl).
Defined.

(** ** The locator *)

Section LocatorFacts.

Context (h : Host).

(** With a non-empty override the locator asks the environment and the
    file system once each, and nothing else. *)
Lemma find_libreoffice_override (s : State) (p : string) :
  os_environ_get h override = Some p ->
  PyStr.truthy p = true ->
  find_libreoffice h s =
    ((if fs_exists (fs s) (Path_of h p)
      then Return (Path_of h p, false)
      else Raise (FileNotFoundError
                    ("LIBREOFFICE_PATH not found: " +:+ str h (Path_of h p)))),
     mkState (fs s)
       (trace s ++ [EnvironGet override; PathExists (Path_of h p)])).
Proof.
  intros E T. unfold find_libreoffice, os_environ, Path_exists, bind, log, ret,
    get_fs, raise. cbn. fold override. rewrite E. cbn. rewrite T. cbn.
  rewrite <- app_assoc. cbn.
  destruct (fs_exists (fs s) (Path_of h p)); reflexivity.
Qed.

(** Without an override the locator is the first match over the probes
    of the specification, and asks exactly what the probes tried ask. *)
Lemma find_libreoffice_auto (s : State) :
  PyStr.truthy_opt (os_environ_get h override) = false ->
  find_libreoffice h s =
    (Locator.locate h (fs s),
     mkState (fs s)
       (trace s ++ EnvironGet override :: PlatformSystem ::
          map (Locator.event h)
            (fst (Locator.first_match h (fs s)
                    (Locator.probes (platform_system h)))))).
Proof.
  intros E. destruct s as [f t].
  unfold find_libreoffice, find_on_windows, candidates, Locator.locate,
    Locator.probes, os_environ, system, which, Path_exists,
    bind, log, ret, get_fs, raise.
  cbn. fold override. rewrite E. cbn.
  destruct (String.eqb (platform_system h) "Windows"); cbn.
  all: unfold bind, which, Path_exists, log, ret, get_fs, raise, Locator.hit.
  all: probe_cases.
  all: repeat (rewrite <- List.app_assoc; cbn).
  all: try reflexivity; congruence.
Qed.

End LocatorFacts.






(** ** The command builder *)

(** C6. In native mode the command is the located executable, the flags
    for headless conversion to [pdf] into the output directory, and the
    input path, all paths as they print; in bridged mode it is the
    launcher [wsl], the tool name [soffice], the same flags with the
    translated output directory, and the translated input path. The input
    comes last in both. *)
Theorem build_convert_command_shape
    (h : Host) (soffice_path input_path out_dir : Path) :
  let native := _build_convert_command h soffice_path input_path out_dir false in
  let bridged := _build_convert_command h soffice_path input_path out_dir true in
  native = str h soffice_path :: conversion_flags (str h out_dir) ++
           [str h input_path] /\
  List.hd_error native = Some (str h soffice_path) /\
  List.last native EmptyString = str h input_path /\
  bridged = "wsl" :: "soffice" ::
            conversion_flags (_windows_to_wsl_path h out_dir) ++
            [_windows_to_wsl_path h input_path] /\
  List.last bridged EmptyString = _windows_to_wsl_path h input_path.
Proof. cbn. repeat split. Qed.

(** ** The converter *)

Section ConverterFacts.

Context (h : Host).

(** *** Which exceptions the library calls raise *)







(** *** The converter, stage by stage *)

Lemma find_libreoffice_reads_only : reads_only (find_libreoffice h).
Proof.
  intros s.
  destruct (PyStr.truthy_opt (os_environ_get h override)) eqn:T.
  - destruct (os_environ_get h override) as [p|] eqn:E; [|discriminate].
    rewrite (find_libreoffice_override h s p E T). reflexivity.
  - rewrite (find_libreoffice_auto h s T). reflexivity.
Qed.

Lemma failure_message_or (text : string) :
  PyStr.or_ (PyStr.strip text) conversion_failed = failure_message text.
Proof.
  unfold failure_message, PyStr.or_. destruct (PyStr.strip text); reflexivity.
Qed.

(** The body of the [with] block, entered with the temporary directory
    in place. *)
Lemma convert_in_stages
    (loc : Path * bool) (input_path output_path : Path) (f : FS) (t : list Event) :
  convert_in h (fst loc) (snd loc) input_path output_path (mkdtemp_name h f)
    (mkState (fs_set (tmp_out_dir_of h f) (Some Dir) f) t) =
  let cmd := command_of h f loc input_path in
  let pdf := tmp_pdf_of h f input_path in
  match process_of h f loc input_path with
  | (inl (e, msg), f2) =>
      (Raise (OSError e msg), mkState f2 (t ++ [SubprocessRun cmd]))
  | (inr result, f2) =>
      if negb (returncode result =? 0)%Z then
        (Raise (RuntimeError (failure_message (stderr result))),
         mkState f2 (t ++ [SubprocessRun cmd]))
      else if fs_exists f2 pdf then
        (Path_mkdir h (PurePath.parent output_path) ;;;
         shutil_move h pdf output_path)
          (mkState f2 (t ++ [SubprocessRun cmd; PathExists pdf]))
      else
        (Raise (RuntimeError no_pdf_output),
         mkState f2 (t ++ [SubprocessRun cmd; PathExists pdf]))
  end.
Proof.
  cbn zeta. unfold convert_in, subprocess_run, process_of, command_of,
    tmp_pdf_of, tmp_out_dir_of, Path_exists.
  unfold bind at 1 2 3. unfold log at 1, get_fs at 1. cbn [fs trace].
  destruct (spawn h _ _) as [[[e msg]|result] f2]; [reflexivity|].
  unfold bind at 1, put_fs at 1, ret at 1. cbn [fs trace].
  destruct (returncode result =? 0)%Z; cbn [negb].
  - unfold bind at 1 2 3. unfold log at 1, get_fs at 1, ret at 1. cbn [fs trace].
    rewrite <- app_assoc. cbn [app].
    destruct (fs_exists f2 _); reflexivity.
  - rewrite failure_message_or. reflexivity.
Qed.

(** The whole call. *)
Lemma convert_docx_to_pdf_stages (input_path output_path : Path) (s : State) :
  convert_docx_to_pdf h input_path output_path s =
  match find_libreoffice h s with
  | (Raise e, s1) => (Raise e, s1)
  | (Return loc, s1) =>
      let tmp := tmp_out_dir_of h (fs s) in
      let (r, s2) :=
        convert_in h (fst loc) (snd loc) input_path output_path
          (mkdtemp_name h (fs s))
          (mkState (fs_set tmp (Some Dir) (fs s)) (trace s1 ++ [Mkdtemp tmp])) in
      (r, mkState (fs_rmtree tmp (fs s2)) (trace s2 ++ [Cleanup tmp]))
  end.
Proof.
  unfold convert_docx_to_pdf. unfold bind at 1.
  pose proof (find_libreoffice_reads_only s) as F.
  destruct (find_libreoffice h s) as [[[soffice_path use_wsl]|e] s1];
    [|reflexivity].
  cbn in F. unfold TemporaryDirectory, tmp_out_dir_of.
  unfold bind, get_fs, log, put_fs, try_finally. cbn. rewrite F. reflexivity.
Qed.



End ConverterFacts.


(** ** The temporary directory *)




(** ** Relocating the PDF *)

Section PathFacts.


Lemma removelast_shorter (l : list string) :
  l <> [] -> List.length (removelast l) < List.length l.
Proof.
  intros N. rewrite (@app_removelast_last _ l EmptyString N) at 2.
  rewrite length_app. cbn. lia.
Qed.

Lemma is_relative_to_spec (p d : Path) :
  PurePath.is_relative_to p d = true <->
  anchor p = anchor d /\ parts d `prefix_of` parts p.
Proof.
  unfold PurePath.is_relative_to.
  rewrite andb_true_iff, !bool_decide_eq_true. reflexivity.
Qed.


(** A path with a component does not lie above its parent. *)
Lemma parent_not_below (p : Path) :
  PurePath.is_relative_to (PurePath.parent p) p = true -> parts p = [].
Proof.
  rewrite is_relative_to_spec. cbn. intros [_ P].
  destruct (parts p) as [|x l] eqn:E; [reflexivity|]. exfalso.
  apply prefix_length in P.
  pose proof (removelast_shorter (x :: l) ltac:(discriminate)). lia.
Qed.



End PathFacts.

Section RelocationFacts.

Context (h : Host).













(** *** Conditions under which the relocation goes through *)




End RelocationFacts.


(** ** [is_wsl] *)

Section ContainsFacts.

Lemma str_startswith_spec (prefix s : string) :
  str_startswith prefix s = true <-> exists b, s = prefix +:+ b.
Proof.
  revert s. induction prefix as [|a p IH]; intros s; cbn [str_startswith].
  - split; [intros _; exists s; reflexivity | reflexivity].
  - destruct s as [|b t].
    + split; [discriminate | intros [z E]; rewrite append_cons in E; discriminate].
    + rewrite andb_true_iff, IH, Ascii.eqb_eq. split.
      * intros [-> [z ->]]. exists z. reflexivity.
      * intros [z E]. rewrite append_cons in E. injection E as -> ->. eauto.
Qed.

Lemma str_contains_spec (needle hay : string) :
  str_contains needle hay = true <-> exists a b, hay = a +:+ needle +:+ b.
Proof.
  induction hay as [|c t IH]; cbn [str_contains];
    rewrite orb_true_iff, str_startswith_spec.
  - split.
    + intros [[b E]|D]; [exists EmptyString, b; exact E | discriminate].
    + intros [[|x a] [b E]]; [left; exists b; exact E|].
      rewrite append_cons in E. discriminate.
  - rewrite IH. split.
    + intros [[b E]|[a [b E]]]; [exists EmptyString, b; exact E|].
      exists (String c a), b. rewrite append_cons, E. reflexivity.
    + intros [[|x a] [b E]]; [left; exists b; exact E|].
      rewrite append_cons in E. injection E as -> ->. right. eauto.
Qed.

Lemma lower_append (a b : string) :
  PyStr.lower (a +:+ b) = PyStr.lower a +:+ PyStr.lower b.
Proof.
  induction a as [|c a IH]; [reflexivity|].
  rewrite append_cons. cbn [PyStr.lower]. rewrite append_cons, IH. reflexivity.
Qed.

Lemma lower_append_inv (c x y : string) :
  PyStr.lower c = x +:+ y ->
  exists c1 c2, c = c1 +:+ c2 /\ PyStr.lower c1 = x /\ PyStr.lower c2 = y.
Proof.
  revert c. induction x as [|a x IH]; intros c E.
  - exists EmptyString, c. auto.
  - destruct c as [|d c]; [discriminate|].
    cbn [PyStr.lower] in E. rewrite append_cons in E. injection E as <- E.
    destruct (IH c E) as (c1 & c2 & -> & <- & <-).
    exists (String d c1), c2. auto.
Qed.

(** A text holds a word in some capitalisation exactly when its
    lower-cased form holds the lower-cased word. *)
Lemma contains_lower (word text : string) :
  str_contains word (PyStr.lower text) = true <->
  exists a m z, text = a +:+ m +:+ z /\ PyStr.lower m = word.
Proof.
  rewrite str_contains_spec. split.
  - intros (a' & z' & E).
    destruct (lower_append_inv _ _ _ E) as (a & r & -> & _ & E').
    destruct (lower_append_inv _ _ _ E') as (m & z & -> & L & _).
    exists a, m, z. auto.
  - intros (a & m & z & -> & <-).
    exists (PyStr.lower a), (PyStr.lower z). rewrite !lower_append. reflexivity.
Qed.

End ContainsFacts.

(** X1. [is_wsl] answers False, without an exception, when
    [/proc/version] is missing; for a file it answers True exactly when
    the text holds the word microsoft in some capitalisation; it leaves
    the state as it is; an error other than FileNotFoundError is not
    taken by its [except] clause. *)
Theorem is_wsl_reads_kernel_version (h : Host) (s : State) :
  (fs s (Path_of h "/proc/version") = None ->
   is_wsl h s = (Return false, s)) /\
  (forall text,
     fs s (Path_of h "/proc/version") = Some (File text) ->
     exists b,
       is_wsl h s = (Return b, s) /\
       (b = true <->
        exists a m z, text = a +:+ m +:+ z /\ PyStr.lower m = "microsoft")) /\
  (fs s (Path_of h "/proc/version") = Some Dir ->
   exists e, fst (is_wsl h s) = Raise e /\ forall msg, e <> FileNotFoundError msg).
Proof.
  unfold is_wsl, open_read. py_unfold. split; [|split].
  - intros ->. reflexivity.
  - intros text ->. eexists. split; [reflexivity|]. apply contains_lower.
  - intros ->. eexists. split; [reflexivity|]. discriminate.
Qed.

(** The kernel of WSL 1 writes Microsoft with a capital. *)
Lemma is_wsl_reads_kernel_version_witness :
  is_wsl Examples.wsl Scenes.no_proc = (Return false, Scenes.no_proc) /\
  fst (is_wsl Examples.wsl Scenes.on_wsl1) = Return true.
Proof.
  destruct (is_wsl_reads_kernel_version Examples.wsl Scenes.no_proc) as [N _].
  destruct (is_wsl_reads_kernel_version Examples.wsl Scenes.on_wsl1) as (_ & F & _).
  split; [exact (N eq_refl)|].
  destruct (F _ eq_refl) as (b & E & B). rewrite E. cbn. f_equal. apply B.
  exists "Linux version 4.4.0-19041-", "Microsoft", " (gcc version 5.4.0)".
  split; reflexivity.
Defined.

(** ** More on the path translator *)

Lemma lower_char_backslash (d : ascii) :
  PyStr.lower_char d = "\"%char -> d = "\"%char.
Proof.
  destruct d as [[] [] [] [] [] [] [] []]; cbv; intros E;
    try reflexivity; discriminate E.
Qed.

(** X2. The result of the translator holds no backslash, unless the
    resolved path string begins with a backslash and a colon: that
    backslash is taken for the drive and kept. *)
Theorem wsl_path_forward_slashes (h : Host) (p : Path) :
  let path_str := str h (resolve h p) in
  (forall i, PyStr.index (_windows_to_wsl_path h p) i <> Some "\"%char) <->
  ~ (PyStr.index path_str 0 = Some "\"%char /\
     PyStr.index path_str 1 = Some ":"%char).
Proof.
  intros path_str. subst path_str.
  destruct (str h (resolve h p)) as [|d [|c rest]] eqn:S.
  - rewrite wsl_path_plain by (rewrite S; discriminate). rewrite S.
    split; [intros _ [E _]; discriminate E | intros _ i; destruct i; discriminate].
  - rewrite wsl_path_plain by (rewrite S; discriminate).
    split; [intros _ [_ E]; discriminate E | intros _; apply replace_slash_clean].
  - destruct (Ascii.eqb_spec c ":") as [->|N].
    + rewrite (wsl_path_colon h p d rest S). split.
      * intros H [[= ->] _]. exact (H 5 eq_refl).
      * intros H [|[|[|[|[|[|i]]]]]]; try discriminate.
        -- cbn. intros [= B]. apply lower_char_backslash in B.
           apply H. subst d. split; reflexivity.
        -- apply (replace_slash_clean rest i).
    + rewrite wsl_path_plain by (rewrite S; congruence).
      split; [intros _ [_ [= E]]; congruence | intros _; apply replace_slash_clean].
Qed.

(** A Windows path with backslashes and slashes mixed comes out with
    slashes only. *)
Lemma wsl_path_forward_slashes_witness :
  _windows_to_wsl_path Examples.win (Hosts.nt_parse "D:\a/b\c.docx") =
    "/mnt/d/a/b/c.docx" /\
  forall i,
    PyStr.index (_windows_to_wsl_path Examples.win
                   (Hosts.nt_parse "D:\a/b\c.docx")) i <> Some "\"%char.
Proof.
  split; [reflexivity|].
  apply (proj2 (wsl_path_forward_slashes Examples.win
                  (Hosts.nt_parse "D:\a/b\c.docx"))).
  intros [E _]. discriminate E.
Defined.

(** X3. The case of the drive character does not matter: two resolved
    path strings that differ in it alone are translated alike. *)
Theorem wsl_path_drive_case
    (h : Host) (p q : Path) (d1 d2 : ascii) (rest : string) :
  str h (resolve h p) = String d1 (String ":" rest) ->
  str h (resolve h q) = String d2 (String ":" rest) ->
  PyStr.lower_char d1 = PyStr.lower_char d2 ->
  _windows_to_wsl_path h p = _windows_to_wsl_path h q.
Proof.
  intros P Q L.
  rewrite (wsl_path_colon h p d1 rest P), (wsl_path_colon h q d2 rest Q), L.
  reflexivity.
Qed.

(** [C:\Users\x\f.docx] and [c:\Users\x\f.docx] *)
Lemma wsl_path_drive_case_witness :
  _windows_to_wsl_path Examples.win (Hosts.nt_parse "C:\Users\x\f.docx") =
  _windows_to_wsl_path Examples.win (Hosts.nt_parse "c:\Users\x\f.docx").
Proof.
  exact (wsl_path_drive_case Examples.win
           (Hosts.nt_parse "C:\Users\x\f.docx")
           (Hosts.nt_parse "c:\Users\x\f.docx")
           "C" "c" "\Users\x\f.docx" eq_refl eq_refl eq_refl).
Defined.

(** ** More on the locator *)

(** X4. The locator answers bridged=true only as the last resort on
    Windows: the override is unset or empty, neither [soffice.exe] nor
    [soffice] is on the search path, none of the installation
    directories holds LibreOffice, the launcher [wsl] is on the search
    path, and the path returned is [wsl]. *)
Theorem bridged_only_as_last_resort (h : Host) (s : State) (p : Path) :
  fst (find_libreoffice h s) = Return (p, true) ->
  platform_system h = "Windows" /\
  PyStr.truthy_opt (os_environ_get h override) = false /\
  PyStr.truthy_opt (shutil_which h "soffice.exe") = false /\
  PyStr.truthy_opt (shutil_which h "soffice") = false /\
  (forall raw, In raw candidates -> fs_exists (fs s) (Path_of h raw) = false) /\
  PyStr.truthy_opt (shutil_which h "wsl") = true /\
  p = Path_of h "wsl".
Proof.
  destruct (PyStr.truthy_opt (os_environ_get h override)) eqn:T.
  - destruct (os_environ_get h override) as [p0|] eqn:E; [|discriminate].
    rewrite (find_libreoffice_override h s p0 E T). cbn.
    destruct (fs_exists (fs s) (Path_of h p0)); discriminate.
  - rewrite (find_libreoffice_auto h s T). cbn [fst].
    unfold Locator.locate, Locator.probes, candidates.
    destruct (String.eqb (platform_system h) "Windows") eqn:W.
    + apply String.eqb_eq in W. unfold Locator.hit. probe_cases.
      all: intros R; try discriminate R.
      all: injection R as <-; repeat split; auto.
      all: intros raw [<-|[<-|[]]]; assumption.
    + unfold Locator.hit. probe_cases. all: discriminate.
Qed.

(** The machine that has the launcher only. *)
Lemma bridged_only_as_last_resort_witness :
  platform_system Examples.bridged = "Windows" /\
  PyStr.truthy_opt (shutil_which Examples.bridged "soffice") = false.
Proof.
  pose proof (bridged_only_as_last_resort Examples.bridged Examples.bare
                (Hosts.nt_parse "wsl") eq_refl) as (W & _ & _ & S & _).
  split; [exact W | exact S].
Defined.

(** X6. An override set to the empty string is passed over: the locator
    goes through the probes as it does without an override. *)
Theorem empty_override_ignored (h : Host) (s : State) :
  os_environ_get h override = Some EmptyString ->
  find_libreoffice h s =
    (Locator.locate h (fs s),
     mkState (fs s)
       (trace s ++ EnvironGet override :: PlatformSystem ::
          map (Locator.event h)
            (fst (Locator.first_match h (fs s)
                    (Locator.probes (platform_system h)))))).
Proof.
  intros E. apply find_libreoffice_auto. rewrite E. reflexivity.
Qed.

(** With the override empty, [soffice] is taken from the search path. *)
Lemma empty_override_ignored_witness :
  fst (find_libreoffice Examples.empty_override Examples.bare) =
  Return (Hosts.posix_parse "/usr/bin/soffice", false).
Proof.
  rewrite (empty_override_ignored Examples.empty_override Examples.bare eq_refl).
  reflexivity.
Defined.

(** ** More on the converter *)

Section ConverterMore.

Context (h : Host).


(** The call for a process that could not be started, exited with
    another code than 0, or left no PDF. *)
Lemma convert_after_failure
    (input_path output_path : Path) (s : State) (loc : Path * bool)
    (outcome : Errno * string + CompletedProcess) (f2 : FS) :
  fst (find_libreoffice h s) = Return loc ->
  process_of h (fs s) loc input_path = (outcome, f2) ->
  match outcome with
  | inl _ => True
  | inr result =>
      returncode result <> 0%Z \/
      fs_exists f2 (tmp_pdf_of h (fs s) input_path) = false
  end ->
  fst (convert_docx_to_pdf h input_path output_path s) =
    match outcome with
    | inl (e, msg) => Raise (OSError e msg)
    | inr result =>
        if (returncode result =? 0)%Z then Raise (RuntimeError no_pdf_output)
        else Raise (RuntimeError (failure_message (stderr result)))
    end /\
  fs (snd (convert_docx_to_pdf h input_path output_path s)) =
    fs_rmtree (tmp_out_dir_of h (fs s)) f2.
Proof.
  intros F P C. rewrite convert_docx_to_pdf_stages.
  destruct (find_libreoffice h s) as [[loc'|e] s1]; [|discriminate F].
  cbn in F. injection F as ->. cbn zeta.
  rewrite convert_in_stages. cbn zeta. rewrite P.
  destruct outcome as [[e msg]|result]; [split; reflexivity|].
  destruct (returncode result =? 0)%Z eqn:RC; cbn [negb];
    [|split; reflexivity].
  apply Z.eqb_eq in RC. destruct C as [C|C]; [contradiction|].
  rewrite C. split; reflexivity.
Qed.


Lemma mkdir_post_not_output (o : Path) (s s1 : State) :
  mkdir_post (PurePath.parent o) s s1 ->
  fs_isdir (fs s) o = false -> fs_isdir (fs s1) o = false.
Proof.
  intros (_ & _ & C) D. destruct (C o) as [E|(_ & _ & B & N)].
  - unfold fs_isdir in *. rewrite E. exact D.
  - apply parent_not_below in B. contradiction.
Qed.






End ConverterMore.

(** X7. When the locator fails, the converter raises the locator's
    exception from the state the locator left: no temporary directory is
    made, no process is run and the file system is as before. *)
Theorem locator_failure_propagates
    (h : Host) (input_path output_path : Path) (s : State) (e : Exc) :
  fst (find_libreoffice h s) = Raise e ->
  convert_docx_to_pdf h input_path output_path s =
    (Raise e, snd (find_libreoffice h s)) /\
  fs (snd (convert_docx_to_pdf h input_path output_path s)) = fs s.
Proof.
  intros F. rewrite convert_docx_to_pdf_stages.
  pose proof (find_libreoffice_reads_only h s) as R.
  destruct (find_libreoffice h s) as [[loc|e'] s1]; [discriminate F|].
  cbn in *. injection F as ->. split; [reflexivity | exact R].
Qed.

(** Without LibreOffice the only calls made are those of the locator. *)
Lemma locator_failure_propagates_witness :
  convert_docx_to_pdf Scenes.without_office Examples.report Examples.final
    Scenes.desk =
  (Raise (FileNotFoundError not_found_message),
   mkState (fs Scenes.desk)
     [EnvironGet override; PlatformSystem; Which "soffice"; Which "libreoffice"]).
Proof.
  exact (proj1 (locator_failure_propagates Scenes.without_office
                  Examples.report Examples.final Scenes.desk _ eq_refl)).
Defined.

(** X8. When the process cannot be started, exits with another code
    than 0 or leaves no PDF, the converter raises, and outside the
    temporary directory the file system is what the process left: the
    converter itself has written nothing, and nothing at the output
    path. *)
Theorem failed_conversion_writes_nothing
    (h : Host) (input_path output_path : Path) (s : State) (loc : Path * bool)
    (outcome : Errno * string + CompletedProcess) (f2 : FS) :
  fst (find_libreoffice h s) = Return loc ->
  process_of h (fs s) loc input_path = (outcome, f2) ->
  match outcome with
  | inl _ => True
  | inr result =>
      returncode result <> 0%Z \/
      fs_exists f2 (tmp_pdf_of h (fs s) input_path) = false
  end ->
  (exists e, fst (convert_docx_to_pdf h input_path output_path s) = Raise e) /\
  (forall q,
     PurePath.is_relative_to q (tmp_out_dir_of h (fs s)) = false ->
     fs (snd (convert_docx_to_pdf h input_path output_path s)) q = f2 q).
Proof.
  intros F P C.
  destruct (convert_after_failure h input_path output_path s loc outcome f2
              F P C) as [R E].
  split.
  - rewrite R. destruct outcome as [[e msg]|result]; [eauto|].
    destruct (returncode result =? 0)%Z; eauto.
  - intros q Q. rewrite E. unfold fs_rmtree. rewrite Q. reflexivity.
Qed.

(** After a converter that gave up, an older PDF at the output path is
    still there. *)
Lemma failed_conversion_writes_nothing_witness :
  fs (snd (convert_docx_to_pdf Examples.failing Examples.report Examples.final
             Scenes.desk_with_old)) Examples.final =
  Some (File "%PDF-1.4 old").
Proof.
  assert (C : returncode
                {| returncode := 1; stdout := EmptyString;
                   stderr := "  Error: source file could not be loaded  " |}
              <> 0%Z \/
              fs_exists
                (fs_set Examples.tmp (Some Dir) (fs Scenes.desk_with_old))
                (tmp_pdf_of Examples.failing (fs Scenes.desk_with_old)
                   Examples.report) = false)
    by (left; discriminate).
  pose proof (failed_conversion_writes_nothing Examples.failing
                Examples.report Examples.final Scenes.desk_with_old
                (Hosts.posix_parse "/usr/bin/soffice", false)
                (inr {| returncode := 1; stdout := EmptyString;
                        stderr := "  Error: source file could not be loaded  " |})
                (fs_set Examples.tmp (Some Dir) (fs Scenes.desk_with_old))
                eq_refl eq_refl C) as [_ H].
  rewrite (H Examples.final eq_refl). reflexivity.
Defined.

Section IntoDirectory.

Context (h : Host).



End IntoDirectory.





(** ** The command line *)

Section CommandLine.

Context (h : Host).




End CommandLine.







(** * The program where library calls can fail *)

(** ** The program over the library that can fail, against the program
    over the library that answers *)

Section CutFacts.

Context (pf : Real.Platform).




















End CutFacts.

(** ** The locator over the library that can fail *)

Section RealLocator.

Context (pf : Real.Platform).

Lemma reads_only_bind {A B} (m : Py A) (k : A -> Py B) :
  reads_only m -> (forall a, reads_only (k a)) -> reads_only (bind m k).
Proof.
  intros Hm Hk s. unfold bind. specialize (Hm s).
  destruct (m s) as [[a|e] s1]; cbn in *; [rewrite Hk | ]; exact Hm.
Qed.

Lemma reads_only_log (e : Event) : reads_only (log e).
Proof. intros s. reflexivity. Qed.

Lemma reads_only_ret {A} (a : A) : reads_only (ret a).
Proof. intros s. reflexivity. Qed.

Lemma reads_only_raise {A} (e : Exc) : reads_only (@raise A e).
Proof. intros s. reflexivity. Qed.

Lemma reads_only_check (c : Real.Call) : reads_only (Real.check pf c).
Proof. intros s. unfold Real.check. destruct (Real.fault pf c); reflexivity. Qed.

Lemma reads_only_Path_exists (p : Path) : reads_only (Real.Path_exists pf p).
Proof.
  unfold Real.Path_exists.
  repeat (apply reads_only_bind; [|intros ?]);
    auto using reads_only_log, reads_only_check, reads_only_ret.
  intros s. reflexivity.
Qed.

Lemma reads_only_first_which (l : list string) :
  reads_only (first_which (Real.host pf) l).
Proof.
  induction l as [|name rest IH]; cbn [first_which]; [apply reads_only_ret|].
  apply reads_only_bind.
  - unfold which. apply reads_only_bind; [apply reads_only_log|].
    intros _. apply reads_only_ret.
  - intros [f|]; [|exact IH].
    destruct (PyStr.truthy f); [apply reads_only_ret | exact IH].
Qed.

Lemma reads_only_first_existing (l : list string) :
  reads_only (Real.first_existing pf l).
Proof.
  induction l as [|raw rest IH]; cbn [Real.first_existing];
    [apply reads_only_ret|].
  apply reads_only_bind; [apply reads_only_Path_exists|].
  intros []; [apply reads_only_ret | exact IH].
Qed.

Lemma real_find_libreoffice_reads_only : reads_only (Real.find_libreoffice pf).
Proof.
  unfold Real.find_libreoffice, Real.find_on_windows, os_environ, system, which.
  repeat first
    [ apply reads_only_log | apply reads_only_ret | apply reads_only_raise
    | apply reads_only_Path_exists | apply reads_only_first_which
    | apply reads_only_first_existing
    | apply reads_only_bind; [|intros ?]
    | match goal with
      | |- reads_only (if ?b then _ else _) => destruct b
      | |- reads_only (match ?x with Some _ => _ | None => _ end) => destruct x
      end ].
Qed.

Lemma fs_determined_bind {A B} (m : Py A) (k : A -> Py B) :
  fs_determined m -> reads_only m -> (forall a, fs_determined (k a)) ->
  fs_determined (bind m k).
Proof.
  intros Hm Rm Hk s s' E. unfold bind.
  pose proof (Hm s s' E) as F. pose proof (Rm s) as R. pose proof (Rm s') as R'.
  destruct (m s) as [[a|e] s1], (m s') as [[a'|e'] s1']; cbn in *;
    try congruence.
  injection F as <-. apply Hk. congruence.
Qed.

Lemma fs_determined_const {A} (m : Py A) (r : Outcome A) :
  (forall s, fst (m s) = r) -> fs_determined m.
Proof. intros C s s' _. rewrite !C. reflexivity. Qed.

Lemma fs_determined_Path_exists (p : Path) :
  fs_determined (Real.Path_exists pf p).
Proof.
  intros s s' E. unfold Real.Path_exists, Real.check, bind, log, get_fs, ret.
  cbn. destruct (Real.fault pf (Real.ExistsCall p)); cbn; congruence.
Qed.

Lemma reads_only_which (name : string) : reads_only (which (Real.host pf) name).
Proof.
  unfold which. apply reads_only_bind; [apply reads_only_log|].
  intros _. apply reads_only_ret.
Qed.

Lemma fs_determined_which (name : string) :
  fs_determined (which (Real.host pf) name).
Proof.
  apply (fs_determined_const _ (Return (shutil_which (Real.host pf) name))).
  reflexivity.
Qed.

Lemma fs_determined_first_which (l : list string) :
  fs_determined (first_which (Real.host pf) l).
Proof.
  induction l as [|name rest IH]; cbn [first_which].
  - apply (fs_determined_const _ (Return None)). reflexivity.
  - apply fs_determined_bind;
      [apply fs_determined_which | apply reads_only_which |].
    intros [f|]; [|exact IH]. destruct (PyStr.truthy f); [|exact IH].
    apply (fs_determined_const _
             (Return (Some (Path_of (Real.host pf) f, false)))).
    reflexivity.
Qed.

Lemma fs_determined_first_existing (l : list string) :
  fs_determined (Real.first_existing pf l).
Proof.
  induction l as [|raw rest IH]; cbn [Real.first_existing].
  - apply (fs_determined_const _ (Return None)). reflexivity.
  - apply fs_determined_bind;
      [apply fs_determined_Path_exists | apply reads_only_Path_exists |].
    intros []; [|exact IH].
    apply (fs_determined_const _
             (Return (Some (Path_of (Real.host pf) raw, false)))).
    reflexivity.
Qed.

Lemma fs_determined_ret {A} (a : A) : fs_determined (ret a).
Proof. apply (fs_determined_const _ (Return a)). reflexivity. Qed.

Lemma fs_determined_raise {A} (e : Exc) : fs_determined (@raise A e).
Proof. apply (fs_determined_const _ (Raise e)). reflexivity. Qed.

Lemma fs_determined_log (e : Event) : fs_determined (log e).
Proof. apply (fs_determined_const _ (Return tt)). reflexivity. Qed.

(** The answer of the locator hangs on the file system alone. *)
Lemma real_find_libreoffice_outcome_fs (s s' : State) :
  fs s = fs s' ->
  fst (Real.find_libreoffice pf s) = fst (Real.find_libreoffice pf s').
Proof.
  revert s s'. change (fs_determined (Real.find_libreoffice pf)).
  unfold Real.find_libreoffice, Real.find_on_windows, os_environ, system.
  repeat first
    [ apply fs_determined_log | apply fs_determined_ret | apply fs_determined_raise
    | apply fs_determined_Path_exists | apply fs_determined_first_which
    | apply fs_determined_first_existing | apply fs_determined_which
    | apply reads_only_log | apply reads_only_ret | apply reads_only_raise
    | apply reads_only_Path_exists | apply reads_only_first_which
    | apply reads_only_first_existing | apply reads_only_which
    | apply fs_determined_bind; [| |intros ?]
    | apply reads_only_bind; [|intros ?]
    | match goal with
      | |- fs_determined (if ?b then _ else _) => destruct b
      | |- fs_determined (match ?x with Some _ => _ | None => _ end) => destruct x
      | |- reads_only (if ?b then _ else _) => destruct b
      | |- reads_only (match ?x with Some _ => _ | None => _ end) => destruct x
      end ].
Qed.

(** The locator with a non-empty override: one look at the named path,
    which fails, finds the path or finds nothing. *)
Lemma real_find_libreoffice_override (s : State) (p : string) :
  os_environ_get (Real.host pf) override = Some p ->
  PyStr.truthy p = true ->
  Real.find_libreoffice pf s =
    (match Real.fault pf (Real.ExistsCall (Path_of (Real.host pf) p)) with
     | Some e => Raise e
     | None =>
         if fs_exists (fs s) (Path_of (Real.host pf) p)
         then Return (Path_of (Real.host pf) p, false)
         else Raise (FileNotFoundError
                       ("LIBREOFFICE_PATH not found: " +:+
                        str (Real.host pf) (Path_of (Real.host pf) p)))
     end,
     mkState (fs s)
       (trace s ++ [EnvironGet override;
                    PathExists (Path_of (Real.host pf) p)])).
Proof.
  intros E T. unfold Real.find_libreoffice, os_environ, Real.Path_exists,
    Real.check, bind, log, ret, get_fs, raise. cbn. fold override. rewrite E.
  cbn. rewrite T. cbn. rewrite <- app_assoc. cbn.
  destruct (Real.fault pf (Real.ExistsCall (Path_of (Real.host pf) p)));
    [reflexivity|].
  cbn. destruct (fs_exists (fs s) (Path_of (Real.host pf) p)); reflexivity.
Qed.

(** The look at a path: it fails, or tells whether something is there. *)
Lemma real_Path_exists_cases (p : Path) (s : State) :
  Real.Path_exists pf p s =
  (match Real.fault pf (Real.ExistsCall p) with
   | Some e => Raise e
   | None => Return (fs_exists (fs s) p)
   end, checked p s).
Proof.
  unfold Real.Path_exists, Real.check, bind, log, get_fs, ret, checked. cbn.
  destruct (Real.fault pf (Real.ExistsCall p)); reflexivity.
Qed.





End RealLocator.

(** ** The override where the look at the path can fail *)

(** C4, as the specification words it, fails where the look at the
    named path cannot be made: a name of 300 letters is no path that
    exists, and the locator raises the OSError of the look, which is no
    FileNotFoundError. *)
Lemma override_missing_counterexample :
  ~ (forall (pf : Real.Platform) (s : State) (p : string),
       os_environ_get (Real.host pf) override = Some p ->
       fs_exists (fs s) (Path_of (Real.host pf) p) = false ->
       exists msg,
         fst (Real.find_libreoffice pf s) = Raise (FileNotFoundError msg)).
Proof.
  intros H.
  destruct (H (Scenes.short_names Scenes.long_override) Examples.bare _
              eq_refl eq_refl) as [msg M].
  vm_compute in M. discriminate M.
Qed.

(** C4, amended. Whenever the override variable is set and the path it
    names does not exist, the locator fails at once: with
    FileNotFoundError when the look at the path is answered, with the
    error of the look when it is not. Either way it has asked for the
    variable and for the path only: neither the platform, the search
    path nor the installation directories are consulted. The empty value
    names the current directory, which exists. *)
Theorem override_missing_never_falls_through
    (pf : Real.Platform) (s : State) (p : string) :
  fs_exists (fs s) (Path_of (Real.host pf) EmptyString) = true ->
  os_environ_get (Real.host pf) override = Some p ->
  fs_exists (fs s) (Path_of (Real.host pf) p) = false ->
  Real.find_libreoffice pf s =
    (match Real.fault pf (Real.ExistsCall (Path_of (Real.host pf) p)) with
     | None =>
         Raise (FileNotFoundError
                  ("LIBREOFFICE_PATH not found: " +:+
                   str (Real.host pf) (Path_of (Real.host pf) p)))
     | Some e => Raise e
     end,
     mkState (fs s)
       (trace s ++ [EnvironGet override;
                    PathExists (Path_of (Real.host pf) p)])).
Proof.
  intros C E X. rewrite (real_find_libreoffice_override pf s p E).
  - rewrite X. destruct (Real.fault pf _); reflexivity.
  - destruct p; [congruence | reflexivity].
Qed.

(** The pinned installation is missing and the one on the search path is
    not taken instead; and the look at a name of 300 letters fails. *)
Lemma override_missing_never_falls_through_witness :
  fst (Real.find_libreoffice (Scenes.steady Examples.pinned) Examples.bare) =
  Raise (FileNotFoundError "LIBREOFFICE_PATH not found: /opt/lo/soffice") /\
  trace (snd (Real.find_libreoffice (Scenes.short_names Scenes.long_override)
                Examples.bare)) =
  [EnvironGet override;
   PathExists (Hosts.posix_parse ("/opt/" +:+ Scenes.letters 300))].
Proof.
  split.
  - rewrite (override_missing_never_falls_through
               (Scenes.steady Examples.pinned) Examples.bare
               "/opt/lo/soffice" eq_refl eq_refl eq_refl).
    reflexivity.
  - rewrite (override_missing_never_falls_through
               (Scenes.short_names Scenes.long_override) Examples.bare
               ("/opt/" +:+ Scenes.letters 300) eq_refl eq_refl eq_refl).
    reflexivity.
Defined.

(** ** Conversion errors where library calls can fail *)


(** The other way round: the process exits with code 0 and leaves the
    PDF, and the call raises a RuntimeError all the same, the
    RecursionError of [Path.mkdir] for an output three missing
    directories down on a stack with room for two calls. Nothing has
    been made. *)
Lemma recursion_error_example :
  fst (Real.convert_docx_to_pdf (Scenes.shallow Examples.working)
         Examples.report Scenes.deep Examples.desk) =
  Raise Real.recursion_error /\
  fs (snd (Real.convert_docx_to_pdf (Scenes.shallow Examples.working)
             Examples.report Scenes.deep Examples.desk))
     (Hosts.posix_parse "a") = None.
Proof. split; reflexivity. Qed.



(** ** The relocation of a call that returns *)




(** ** The locator and the command line where library calls can fail *)

Section RealMain.

Context (pf : Real.Platform).

Lemma first_which_returns (l : list string) (s : State) :
  exists r, fst (first_which (Real.host pf) l s) = Return r.
Proof.
  revert s. induction l as [|name rest IH]; intros s; cbn [first_which].
  - eexists. reflexivity.
  - unfold bind at 1, which, bind, log, ret. cbn.
    destruct (shutil_which (Real.host pf) name) as [f|]; [|apply IH].
    destruct (PyStr.truthy f); [eexists; reflexivity | apply IH].
Qed.

Lemma first_existing_raises (l : list string) (s : State) (e : Exc) :
  fst (Real.first_existing pf l s) = Raise e ->
  exists raw,
    In raw l /\
    Real.fault pf (Real.ExistsCall (Path_of (Real.host pf) raw)) = Some e.
Proof.
  revert s. induction l as [|raw rest IH]; intros s; cbn [Real.first_existing];
    [discriminate|].
  unfold bind at 1. rewrite real_Path_exists_cases.
  destruct (Real.fault pf (Real.ExistsCall (Path_of (Real.host pf) raw)))
    as [e'|] eqn:F.
  - intros [= <-]. exists raw. split; [left; reflexivity | exact F].
  - destruct (fs_exists (fs s) (Path_of (Real.host pf) raw)); [discriminate|].
    intros R. destruct (IH _ R) as (r & I & G). exists r.
    split; [right; exact I | exact G].
Qed.

Lemma which_cases (name : string) (s : State) :
  which (Real.host pf) name s =
  (Return (shutil_which (Real.host pf) name),
   mkState (fs s) (trace s ++ [Which name])).
Proof. reflexivity. Qed.

Lemma find_on_windows_raises (s : State) (e : Exc) :
  fst (Real.find_on_windows pf s) = Raise e ->
  exists raw,
    In raw candidates /\
    Real.fault pf (Real.ExistsCall (Path_of (Real.host pf) raw)) = Some e.
Proof.
  unfold Real.find_on_windows. unfold bind at 1.
  destruct (first_which_returns ["soffice.exe"; "soffice"] s) as [r W].
  destruct (first_which (Real.host pf) _ s) as [[r'|e'] s2]; cbn [fst] in W;
    [|discriminate W].
  destruct r' as [loc|]; [discriminate|].
  unfold bind at 1.
  destruct (Real.first_existing pf candidates s2) as [[[loc|]|e'] s3] eqn:X.
  - discriminate.
  - unfold bind at 1. rewrite which_cases.
    destruct (PyStr.truthy_opt (shutil_which (Real.host pf) "wsl"));
      discriminate.
  - cbn [fst]. intros [= <-].
    apply (first_existing_raises candidates s2). rewrite X. reflexivity.
Qed.

(** What the locator raises without an override. *)
Lemma real_find_libreoffice_auto_raises (s : State) (e : Exc) :
  PyStr.truthy_opt (os_environ_get (Real.host pf) override) = false ->
  fst (Real.find_libreoffice pf s) = Raise e ->
  e = FileNotFoundError not_found_message \/
  exists raw,
    In raw candidates /\
    Real.fault pf (Real.ExistsCall (Path_of (Real.host pf) raw)) = Some e.
Proof.
  intros T. unfold Real.find_libreoffice, os_environ, system.
  unfold bind at 1 2, log at 1, ret at 1. cbn [fs trace]. fold override.
  rewrite T. unfold bind at 1 2, log at 1, ret at 1. cbn [fs trace].
  unfold bind at 1.
  set (s1 := mkState _ _).
  assert (Last : forall s2,
            fst ((r <- first_which (Real.host pf) ["soffice"; "libreoffice"] ;;
                  match r with
                  | Some loc => ret loc
                  | None => raise (FileNotFoundError not_found_message)
                  end) s2) = Raise e ->
            e = FileNotFoundError not_found_message).
  { intros s2. unfold bind.
    destruct (first_which_returns ["soffice"; "libreoffice"] s2) as [r W].
    destruct (first_which (Real.host pf) _ s2) as [[r'|e'] s3]; cbn [fst] in W;
      [|discriminate W].
    destruct r'; [discriminate|]. intros [= <-]. reflexivity. }
  destruct (String.eqb (platform_system (Real.host pf)) "Windows").
  2:{ intros R. left. exact (Last _ R). }
  pose proof (find_on_windows_raises s1 e) as FW.
  destruct (Real.find_on_windows pf s1) as [[[loc|]|e'] s2].
  - discriminate.
  - intros R. left. exact (Last _ R).
  - cbn [fst]. intros [= <-]. right. apply FW. reflexivity.
Qed.

Lemma real_convert_locator_failure
    (input_path output_path : Path) (s : State) (e : Exc) :
  fst (Real.find_libreoffice pf s) = Raise e ->
  fst (Real.convert_docx_to_pdf pf input_path output_path s) = Raise e /\
  fs (snd (Real.convert_docx_to_pdf pf input_path output_path s)) = fs s.
Proof.
  intros F. unfold Real.convert_docx_to_pdf, bind.
  pose proof (real_find_libreoffice_reads_only pf s) as R.
  destruct (Real.find_libreoffice pf s) as [[loc|e'] s1]; [discriminate F|].
  cbn in *. split; [congruence | exact R].
Qed.

End RealMain.

(** X5. The locator leaves the file system as it is. What it raises is
    FileNotFoundError, with the message for a missing override path or
    with the message that LibreOffice was not found, or else the error
    of a look at a path that failed: at the override path or at an
    installation directory. *)
Theorem locator_failures (pf : Real.Platform) (s : State) :
  fs (snd (Real.find_libreoffice pf s)) = fs s /\
  forall e,
    fst (Real.find_libreoffice pf s) = Raise e ->
    (PyStr.truthy_opt (os_environ_get (Real.host pf) override) = false /\
     e = FileNotFoundError not_found_message) \/
    (exists p,
       os_environ_get (Real.host pf) override = Some p /\
       fs_exists (fs s) (Path_of (Real.host pf) p) = false /\
       e = FileNotFoundError
             ("LIBREOFFICE_PATH not found: " +:+
              str (Real.host pf) (Path_of (Real.host pf) p))) \/
    (exists c,
       In c (Real.locator_calls (Real.host pf)) /\
       Real.fault pf c = Some e).
Proof.
  split; [apply real_find_libreoffice_reads_only|]. intros e.
  destruct (PyStr.truthy_opt (os_environ_get (Real.host pf) override)) eqn:T.
  - destruct (os_environ_get (Real.host pf) override) as [p|] eqn:E;
      [|discriminate].
    rewrite (real_find_libreoffice_override pf s p E T). cbn [fst].
    destruct (Real.fault pf (Real.ExistsCall (Path_of (Real.host pf) p)))
      as [e'|] eqn:F.
    + intros [= <-]. right. right. eexists. split; [|exact F].
      unfold Real.locator_calls. rewrite E. left. reflexivity.
    + destruct (fs_exists (fs s) (Path_of (Real.host pf) p)) eqn:X;
        [discriminate|].
      intros [= <-]. right. left. exists p. auto.
  - intros R.
    destruct (real_find_libreoffice_auto_raises pf s e T R)
      as [->|(raw & I & F)]; [left; auto|].
    right. right. eexists. split; [|exact F].
    unfold Real.locator_calls. right.
    apply List.in_map_iff. exists raw. auto.
Qed.

(** A machine without LibreOffice, and an override of 300 letters. *)
Lemma locator_failures_witness :
  fst (Real.find_libreoffice (Scenes.steady Scenes.without_office)
         Examples.bare) =
  Raise (FileNotFoundError not_found_message) /\
  fs (snd (Real.find_libreoffice (Scenes.short_names Scenes.long_override)
             Examples.bare)) = fs Examples.bare.
Proof.
  split.
  - destruct (proj2 (locator_failures (Scenes.steady Scenes.without_office)
                       Examples.bare) _ eq_refl)
      as [[_ E]|[(p & E & _)|(c & _ & E)]].
    + reflexivity.
    + discriminate E.
    + discriminate E.
  - exact (proj1 (locator_failures (Scenes.short_names Scenes.long_override)
                    Examples.bare)).
Defined.

(** X11. When the input is not there, [main] does not reach the
    converter and the file system is as before: where the look at the
    input is answered it returns 1 with a line naming the input on the
    standard error; where the look fails, the error of the look leaves
    [main] and nothing is written. *)
Theorem main_without_input
    (pf : Real.Platform) (input_path output_path : Path)
    (s : State) (c : Console) :
  fs_exists (fs s) input_path = false ->
  Real.main pf input_path output_path s c =
    match Real.fault pf (Real.ExistsCall input_path) with
    | None =>
        (Return 1%Z,
         mkState (fs s) (trace s ++ [PathExists input_path]),
         mkConsole (out_lines c)
           (err_lines c ++
            ["Error: Input file not found: " +:+
             str (Real.host pf) input_path]))
    | Some e =>
        (Raise e, mkState (fs s) (trace s ++ [PathExists input_path]), c)
    end.
Proof.
  intros X. unfold Real.main. rewrite real_Path_exists_cases, X.
  destruct (Real.fault pf (Real.ExistsCall input_path)); reflexivity.
Qed.

(** No [report.docx] on the desk; and a document of 300 letters. *)
Lemma main_without_input_witness :
  Real.main (Scenes.steady Examples.working) Examples.report Examples.final
    Examples.desk Scenes.quiet =
  (Return 1%Z,
   mkState (fs Examples.desk) [PathExists Examples.report],
   mkConsole [] ["Error: Input file not found: report.docx"]) /\
  snd (Real.main (Scenes.short_names Examples.working) Scenes.long_report
         Examples.final Examples.desk Scenes.quiet) = Scenes.quiet.
Proof.
  split.
  - rewrite (main_without_input (Scenes.steady Examples.working)
               Examples.report Examples.final Examples.desk Scenes.quiet eq_refl).
    reflexivity.
  - rewrite (main_without_input (Scenes.short_names Examples.working)
               Scenes.long_report Examples.final Examples.desk Scenes.quiet
               eq_refl).
    reflexivity.
Defined.





(** X14. When the input is there and the locator raises, the file
    system is as before and [main] goes by the class of the exception: a
    FileNotFoundError gives exit code 1 and its message after [Error: ]
    on the standard error; the error of a look that failed, which is no
    FileNotFoundError and no RuntimeError, leaves [main] with nothing
    written. *)
Theorem main_on_locator_failure
    (pf : Real.Platform) (input_path output_path : Path) (s : State)
    (c : Console) (e : Exc) :
  fs_exists (fs s) input_path = true ->
  Real.fault pf (Real.ExistsCall input_path) = None ->
  fst (Real.find_libreoffice pf s) = Raise e ->
  let m := Real.main pf input_path output_path s c in
  fs (snd (fst m)) = fs s /\
  (forall msg,
     e = FileNotFoundError msg ->
     fst (fst m) = Return 1%Z /\
     snd m = mkConsole (out_lines c) (err_lines c ++ ["Error: " +:+ msg])) /\
  ((forall msg, e <> FileNotFoundError msg) ->
   (forall msg, e <> RuntimeError msg) ->
   fst (fst m) = Raise e /\ snd m = c).
Proof.
  intros I A F m. subst m. unfold Real.main.
  rewrite real_Path_exists_cases, A, I.
  assert (F' : fst (Real.find_libreoffice pf (checked input_path s)) = Raise e).
  { rewrite <- F. apply real_find_libreoffice_outcome_fs. reflexivity. }
  destruct (real_convert_locator_failure pf input_path output_path
              (checked input_path s) e F') as [R B].
  destruct (Real.convert_docx_to_pdf pf input_path output_path
              (checked input_path s)) as [r s2].
  cbn [fst snd] in R, B. subst r. cbn [fs checked] in B.
  destruct e as [[] msg|msg|msg|msg]; cbn; repeat split; intros;
    try discriminate; simplify_eq; auto; try congruence.
  all: try (exfalso; eapply H; reflexivity).
  all: try (exfalso; eapply H0; reflexivity).
Qed.

(** Without LibreOffice; and with an override of 300 letters. *)
Lemma main_on_locator_failure_witness :
  snd (Real.main (Scenes.steady Scenes.without_office) Examples.report
         Examples.final Scenes.desk Scenes.quiet) =
  mkConsole []
    ["Error: LibreOffice not found. Install it, set LIBREOFFICE_PATH, or use WSL."] /\
  snd (Real.main (Scenes.short_names Scenes.long_override) Examples.report
         Examples.final Scenes.desk Scenes.quiet) = Scenes.quiet.
Proof.
  split.
  - destruct (main_on_locator_failure (Scenes.steady Scenes.without_office)
                Examples.report Examples.final Scenes.desk Scenes.quiet
                (FileNotFoundError not_found_message) eq_refl eq_refl eq_refl)
      as (_ & E & _).
    exact (proj2 (E _ eq_refl)).
  - destruct (main_on_locator_failure (Scenes.short_names Scenes.long_override)
                Examples.report Examples.final Scenes.desk Scenes.quiet
                _ eq_refl eq_refl eq_refl)
      as (_ & _ & E).
    refine (proj2 (E _ _)); intros msg; discriminate.
Defined.


